(** * apple-calendar-mcp: the calendar bridge, embedded and verified

    A shallow embedding of [apple_calendar_mcp/models.py] and
    [apple_calendar_mcp/calendar.py].  Python values are modelled as
    follows.

    - [str] is [string], the text in UTF-8; truthiness of a [str] is
      non-emptiness; [a in b] is substring search; [str.lower] is
      Python's, taken as it is with the two facts the program needs of
      it (the class [Py.StrLower]).
    - a naive [datetime] is the number of microseconds since
      0001-01-01T00:00:00, so that comparison of datetimes is [<=] on
      [Z] and adding a [timedelta] is addition.
    - an [NSDate] is the number of microseconds since the Unix epoch.
    - [T | None] is [option T].
    - exceptions are values of [Exception]; a function that can raise
      returns a [result].
    - the host calendar subsystem (EventKit / Foundation) is an
      interface: the classes [Platform] and [EventStore]. *)

From Stdlib Require Import ZArith List String Ascii Bool Lia.
From Stdlib Require Import Sorted Permutation DecimalString.
Import ListNotations.

Local Open Scope string_scope.
Local Open Scope Z_scope.

(** ** Python primitives *)

Module Py.

(** Truthiness of a [str]. *)
Definition truthy (s : string) : bool :=
  match s with
  | EmptyString => false
  | String _ _ => true
  end.

(** [x or ""] for [x : str | None]. *)
Definition or_empty (x : option string) : string :=
  match x with
  | Some s => if truthy s then s else ""
  | None => ""
  end.

(** [str(x)] for [x : str | None]. *)
Definition str_of (x : option string) : string :=
  match x with
  | Some s => s
  | None => "None"
  end.

(** [s.lower()], as Python computes it on Unicode text.  It is not
    written out here: the program needs of it only that the empty
    string, and no other, lowers to the empty string. *)
Class StrLower : Type := {
  lower : string -> string;
  lower_empty : lower "" = "";
  lower_not_empty : forall s, lower s = "" -> s = ""
}.

(** The lowering of the ASCII letters, every other character left as it
    is: what [s.lower()] is on ASCII text. *)
Definition lower_char (c : ascii) : ascii :=
  let n := nat_of_ascii c in
  if (Nat.leb 65 n && Nat.leb n 90)%bool then ascii_of_nat (n + 32) else c.

Fixpoint ascii_lower (s : string) : string :=
  match s with
  | EmptyString => EmptyString
  | String c s' => String (lower_char c) (ascii_lower s')
  end.

(** [s.startswith(p)] *)
Fixpoint startswith (p s : string) : bool :=
  match p, s with
  | EmptyString, _ => true
  | String _ _, EmptyString => false
  | String a p', String b s' => (Ascii.eqb a b && startswith p' s')%bool
  end.

(** [needle in hay] *)
Fixpoint contains (needle hay : string) : bool :=
  (startswith needle hay ||
   match hay with
   | EmptyString => false
   | String _ hay' => contains needle hay'
   end)%bool.

(** [parts.append(x)] *)
Definition append {A : Type} (parts : list A) (x : A) : list A :=
  (parts ++ [x])%list.

(** [sep.join(parts)] *)
Fixpoint join (sep : string) (parts : list string) : string :=
  match parts with
  | [] => ""
  | [p] => p
  | p :: ps => p ++ sep ++ join sep ps
  end.


(** *** datetime *)

Definition datetime := Z.

Definition us_per_second : Z := 1000000.
Definition us_per_minute : Z := 60 * us_per_second.
Definition us_per_hour : Z := 60 * us_per_minute.
Definition us_per_day : Z := 24 * us_per_hour.

(** [timedelta(days=d)] *)
Definition timedelta_days (d : Z) : Z := d * us_per_day.

(** Proleptic Gregorian date of the day numbered [n], day 0 being
    0001-01-01; the result is (year, month, day). *)
Definition civil_of_days (n : Z) : Z * Z * Z :=
  let z := n + 306 in
  let era := z / 146097 in
  let doe := z mod 146097 in
  let yoe := (doe - doe / 1460 + doe / 36524 - doe / 146096) / 365 in
  let doy := doe - (365 * yoe + yoe / 4 - yoe / 100) in
  let mp := (5 * doy + 2) / 153 in
  let d := doy - (153 * mp + 2) / 5 + 1 in
  let m := if mp <? 10 then mp + 3 else mp - 9 in
  let y := yoe + era * 400 + (if m <=? 2 then 1 else 0) in
  (y, m, d).

Definition year (dt : datetime) : Z := fst (fst (civil_of_days (dt / us_per_day))).
Definition month (dt : datetime) : Z := snd (fst (civil_of_days (dt / us_per_day))).
Definition day (dt : datetime) : Z := snd (civil_of_days (dt / us_per_day)).
Definition hour (dt : datetime) : Z := (dt mod us_per_day) / us_per_hour.
Definition minute (dt : datetime) : Z := (dt mod us_per_hour) / us_per_minute.

Definition digit (n : Z) : ascii := ascii_of_nat (48 + Z.to_nat (n mod 10)).

(** The [w] low decimal digits of [n], zero padded. *)
Fixpoint zfill (w : nat) (n : Z) : string :=
  match w with
  | O => ""
  | S w' => zfill w' (n / 10) ++ String (digit n) ""
  end.

(** One [strftime] directive. *)
Definition directive (dt : datetime) (c : ascii) : string :=
  if Ascii.eqb c "Y" then zfill 4 (year dt)
  else if Ascii.eqb c "m" then zfill 2 (month dt)
  else if Ascii.eqb c "d" then zfill 2 (day dt)
  else if Ascii.eqb c "H" then zfill 2 (hour dt)
  else if Ascii.eqb c "M" then zfill 2 (minute dt)
  else String "%" (String c "").

(** [dt.strftime(fmt)] for the directives the program uses; [pct] tells
    that the character before was a percent sign. *)
Fixpoint strftime_from (dt : datetime) (pct : bool) (fmt : string) : string :=
  match fmt with
  | EmptyString => if pct then "%" else ""
  | String c rest =>
      if pct then directive dt c ++ strftime_from dt false rest
      else if Ascii.eqb c "%" then strftime_from dt true rest
      else String c (strftime_from dt false rest)
  end.

Definition strftime (dt : datetime) (fmt : string) : string :=
  strftime_from dt false fmt.

(** *** sorted(xs, key=...) *)

Section Sorted.
Context {A : Type} (key : A -> Z).

(** [x] comes from the left of everything in [l]: it is placed before
    the first element whose key is not smaller, so that elements of
    equal key keep their order. *)
Fixpoint insert (x : A) (l : list A) : list A :=
  match l with
  | [] => [x]
  | y :: l' => if key x <=? key y then x :: y :: l' else y :: insert x l'
  end.

(** [sorted(l, key=key)]: the stable sort of [l] by [key]. *)
Fixpoint sorted (l : list A) : list A :=
  match l with
  | [] => []
  | x :: l' => insert x (sorted l')
  end.

(** The order [sorted] establishes. *)
Definition key_le (a b : A) : Prop := key a <= key b.
End Sorted.

(** *** sorted(xs) on strings *)

(** [x] comes from the left of everything in [l]; strings compare
    character by character, a proper prefix first. *)
Fixpoint insert_str (x : string) (l : list string) : list string :=
  match l with
  | [] => [x]
  | y :: l' => if String.leb x y then x :: y :: l' else y :: insert_str x l'
  end.

(** [sorted(l)] for a list of [str]. *)
Fixpoint sorted_str (l : list string) : list string :=
  match l with
  | [] => []
  | x :: l' => insert_str x (sorted_str l')
  end.

(** *** More of datetime *)

(** [timedelta(weeks=w)] *)
Definition timedelta_weeks (w : Z) : Z := w * 7 * us_per_day.

(** [dt.weekday()]: Monday is 0; day 0, 0001-01-01, is a Monday. *)
Definition weekday (dt : datetime) : Z := (dt / us_per_day) mod 7.

(** [dt.replace(hour=0, minute=0, second=0, microsecond=0)] *)
Definition at_midnight (dt : datetime) : datetime := dt - dt mod us_per_day.

(** [str(n)] for [n = len(xs)]. *)
Definition str_of_len {A : Type} (xs : list A) : string :=
  NilZero.string_of_uint (Nat.to_uint (List.length xs)).

(** The line feed. *)
Definition LF : string := String (ascii_of_nat 10) "".

End Py.


(** ** Exceptions and results *)

(** The exception classes of [calendar.py]: [CalendarError] is the base
    class, raised directly with a message; the other two are its
    subclasses and carry the name or the identifier not found. *)
Inductive Exception : Type :=
| CalendarError (msg : string)
| NoSuchCalendarError (name : string)
| NoSuchEventError (event_id : string).

(** [str(e)] *)
Definition message (e : Exception) : string :=
  match e with
  | CalendarError msg => msg
  | NoSuchCalendarError name => "캘린더를 찾을 수 없습니다: " ++ name
  | NoSuchEventError event_id => "이벤트를 찾을 수 없습니다: " ++ event_id
  end.

Inductive result (A : Type) : Type :=
| Return (a : A)
| Raise (e : Exception).
Arguments Return {A} a.
Arguments Raise {A} e.

(** Code that mutates an object of type [S] in place and can raise: the
    object is threaded through and survives an exception. *)
Definition StateErr (S A : Type) : Type := S -> result A * S.

Class Monad (m : Type -> Type) : Type := {
  ret : forall {A}, A -> m A;
  bind : forall {A B}, m A -> (A -> m B) -> m B
}.

#[export] Instance Monad_result : Monad result := {
  ret := fun A a => Return a;
  bind := fun A B m k =>
    match m with
    | Return a => k a
    | Raise e => Raise e
    end
}.

#[export] Instance Monad_StateErr (S : Type) : Monad (StateErr S) := {
  ret := fun A a s => (Return a, s);
  bind := fun A B m k s =>
    match m s with
    | (Return a, s') => k a s'
    | (Raise e, s') => (Raise e, s')
    end
}.

Notation "x <- m ;; k" := (bind m (fun x => k))
  (at level 61, m at next level, right associativity).
Notation "m ;; k" := (bind m (fun _ => k))
  (at level 61, right associativity).

Definition raise {S A : Type} (e : Exception) : StateErr S A :=
  fun s => (Raise e, s).

(** A computation that only reads the state. *)
Definition lift {S A : Type} (f : S -> result A) : StateErr S A :=
  fun s => (f s, s).

Definition modify {S : Type} (f : S -> S) : StateErr S unit :=
  fun s => (Return tt, f s).

Definition get {S : Type} : StateErr S S :=
  fun s => (Return s, s).

(** [for x in xs: body(x)] *)
Fixpoint for_each {S A : Type} (xs : list A) (body : A -> StateErr S unit)
  : StateErr S unit :=
  match xs with
  | [] => ret tt
  | x :: xs' => body x ;; for_each xs' body
  end.

(** [if x is not None: body(x)] *)
Definition if_not_None {S A : Type} (x : option A) (body : A -> StateErr S unit)
  : StateErr S unit :=
  match x with
  | Some a => body a
  | None => ret tt
  end.

(** ** The host: EventKit and Foundation objects *)

Definition NSDate := Z.

Module EventKit.

Record NSURL : Type := { absoluteString : string }.

Record EKCalendar : Type := {
  calendarIdentifier : string;
  calendar_title : string            (* [cal.title()] *)
}.

Record EKAlarm : Type := { relativeOffset : Z }.

Inductive EKRecurrenceFrequency : Type :=
| EKRecurrenceFrequencyDaily
| EKRecurrenceFrequencyWeekly
| EKRecurrenceFrequencyMonthly
| EKRecurrenceFrequencyYearly.

(** [EKRecurrenceRule.alloc().initRecurrenceWithFrequency_interval_end_] *)
Record EKRecurrenceRule : Type := {
  rule_frequency : EKRecurrenceFrequency;
  rule_interval : Z;
  recurrenceEnd : option NSDate
}.

(** The in-memory event object.  The accessors of the source are the
    fields; [alarms] and [recurrenceRules] are derived below because
    the host answers nil for an empty collection. *)
Record EKEvent : Type := {
  eventIdentifier : string;
  title : option string;
  startDate : NSDate;
  endDate : NSDate;
  isAllDay : bool;
  location : option string;
  notes : option string;
  URL : option NSURL;
  calendar : option EKCalendar;
  alarm_objects : list EKAlarm;
  rule_objects : list EKRecurrenceRule
}.

Definition nil_if_empty {A : Type} (l : list A) : option (list A) :=
  match l with
  | [] => None
  | _ :: _ => Some l
  end.

Definition alarms (e : EKEvent) : option (list EKAlarm) :=
  nil_if_empty (alarm_objects e).

Definition recurrenceRules (e : EKEvent) : option (list EKRecurrenceRule) :=
  nil_if_empty (rule_objects e).

Definition hasRecurrenceRules (e : EKEvent) : bool :=
  match rule_objects e with
  | [] => false
  | _ :: _ => true
  end.

Definition EKAlarm_eq_dec (a b : EKAlarm) : {a = b} + {a <> b}.
Proof. decide equality; apply Z.eq_dec. Defined.

Definition EKRecurrenceRule_eq_dec (a b : EKRecurrenceRule) : {a = b} + {a <> b}.
Proof.
  decide equality.
  - decide equality; apply Z.eq_dec.
  - apply Z.eq_dec.
  - decide equality.
Defined.

(** Removal of one object from a collection of the event. *)
Fixpoint remove_object {A : Type} (eq_dec : forall a b : A, {a = b} + {a <> b})
  (x : A) (l : list A) : list A :=
  match l with
  | [] => []
  | y :: l' => if eq_dec x y then l' else y :: remove_object eq_dec x l'
  end.

(** The setters, as functions on the object. *)
Definition setTitle_ (v : string) (e : EKEvent) : EKEvent :=
  {| eventIdentifier := eventIdentifier e; title := Some v;
     startDate := startDate e; endDate := endDate e; isAllDay := isAllDay e;
     location := location e; notes := notes e; URL := URL e;
     calendar := calendar e; alarm_objects := alarm_objects e;
     rule_objects := rule_objects e |}.

Definition setStartDate_ (v : NSDate) (e : EKEvent) : EKEvent :=
  {| eventIdentifier := eventIdentifier e; title := title e;
     startDate := v; endDate := endDate e; isAllDay := isAllDay e;
     location := location e; notes := notes e; URL := URL e;
     calendar := calendar e; alarm_objects := alarm_objects e;
     rule_objects := rule_objects e |}.

Definition setEndDate_ (v : NSDate) (e : EKEvent) : EKEvent :=
  {| eventIdentifier := eventIdentifier e; title := title e;
     startDate := startDate e; endDate := v; isAllDay := isAllDay e;
     location := location e; notes := notes e; URL := URL e;
     calendar := calendar e; alarm_objects := alarm_objects e;
     rule_objects := rule_objects e |}.

Definition setAllDay_ (v : bool) (e : EKEvent) : EKEvent :=
  {| eventIdentifier := eventIdentifier e; title := title e;
     startDate := startDate e; endDate := endDate e; isAllDay := v;
     location := location e; notes := notes e; URL := URL e;
     calendar := calendar e; alarm_objects := alarm_objects e;
     rule_objects := rule_objects e |}.

Definition setLocation_ (v : string) (e : EKEvent) : EKEvent :=
  {| eventIdentifier := eventIdentifier e; title := title e;
     startDate := startDate e; endDate := endDate e; isAllDay := isAllDay e;
     location := Some v; notes := notes e; URL := URL e;
     calendar := calendar e; alarm_objects := alarm_objects e;
     rule_objects := rule_objects e |}.

Definition setNotes_ (v : string) (e : EKEvent) : EKEvent :=
  {| eventIdentifier := eventIdentifier e; title := title e;
     startDate := startDate e; endDate := endDate e; isAllDay := isAllDay e;
     location := location e; notes := Some v; URL := URL e;
     calendar := calendar e; alarm_objects := alarm_objects e;
     rule_objects := rule_objects e |}.

(** [setURL_] receives what [NSURL.URLWithString_] answered, nil for a
    string that is no URL. *)
Definition setURL_ (v : option NSURL) (e : EKEvent) : EKEvent :=
  {| eventIdentifier := eventIdentifier e; title := title e;
     startDate := startDate e; endDate := endDate e; isAllDay := isAllDay e;
     location := location e; notes := notes e; URL := v;
     calendar := calendar e; alarm_objects := alarm_objects e;
     rule_objects := rule_objects e |}.

Definition setCalendar_ (v : EKCalendar) (e : EKEvent) : EKEvent :=
  {| eventIdentifier := eventIdentifier e; title := title e;
     startDate := startDate e; endDate := endDate e; isAllDay := isAllDay e;
     location := location e; notes := notes e; URL := URL e;
     calendar := Some v; alarm_objects := alarm_objects e;
     rule_objects := rule_objects e |}.

Definition set_alarm_objects (v : list EKAlarm) (e : EKEvent) : EKEvent :=
  {| eventIdentifier := eventIdentifier e; title := title e;
     startDate := startDate e; endDate := endDate e; isAllDay := isAllDay e;
     location := location e; notes := notes e; URL := URL e;
     calendar := calendar e; alarm_objects := v;
     rule_objects := rule_objects e |}.

Definition set_rule_objects (v : list EKRecurrenceRule) (e : EKEvent) : EKEvent :=
  {| eventIdentifier := eventIdentifier e; title := title e;
     startDate := startDate e; endDate := endDate e; isAllDay := isAllDay e;
     location := location e; notes := notes e; URL := URL e;
     calendar := calendar e; alarm_objects := alarm_objects e;
     rule_objects := v |}.

Definition addAlarm_ (a : EKAlarm) (e : EKEvent) : EKEvent :=
  set_alarm_objects (alarm_objects e ++ [a])%list e.

Definition removeAlarm_ (a : EKAlarm) (e : EKEvent) : EKEvent :=
  set_alarm_objects (remove_object EKAlarm_eq_dec a (alarm_objects e)) e.

Definition addRecurrenceRule_ (r : EKRecurrenceRule) (e : EKEvent) : EKEvent :=
  set_rule_objects (rule_objects e ++ [r])%list e.

Definition removeRecurrenceRule_ (r : EKRecurrenceRule) (e : EKEvent) : EKEvent :=
  set_rule_objects (remove_object EKRecurrenceRule_eq_dec r (rule_objects e)) e.

(** [EKAlarm.alarmWithRelativeOffset_] *)
Definition alarmWithRelativeOffset_ (offset : Z) : EKAlarm :=
  {| relativeOffset := offset |}.

(** [predicateForEventsWithStartDate_endDate_calendars_] *)
Record NSPredicate : Type := {
  predicate_start : NSDate;
  predicate_end : NSDate;
  predicate_calendars : option (list EKCalendar)
}.

End EventKit.
Import EventKit.

(** The constants of [calendar.py]. *)
Definition EKSpanThisEvent : Z := 0.
Definition EKSpanFutureEvents : Z := 1.

(** What the store answers to a save or a removal: the pair
    [(success, error)] of the source, [error] already rendered by
    [str], with the object and the store as the host left them. *)
Record HostReply (Store : Type) : Type := {
  success : bool;
  error : string;
  object_after : EKEvent;
  store_after : Store
}.
Arguments success {Store} _.
Arguments error {Store} _.
Arguments object_after {Store} _.
Arguments store_after {Store} _.

(** The local time zone and [NSURL], as Python and Foundation give them. *)
Class Platform : Type := {
  timestamp : Py.datetime -> NSDate;           (* [dt.timestamp()] *)
  fromtimestamp : NSDate -> Py.datetime;       (* [datetime.fromtimestamp] *)
  URLWithString_ : string -> option NSURL
}.

(** [EKEventStore], the connection to the calendar subsystem.

    An object that [eventWithIdentifier_] hands out is the store's own:
    the setters act on it in place.  When it goes to a save, the store
    sees the edits in the object it receives.  When the program lets go
    of it without a save, the store is left with the edited object:
    [left_edited self ekevent] is the store in that state, [ekevent]
    being the object as edited. *)
Class EventStore (Store : Type) : Type := {
  calendarsForEntityType_ : Store -> list EKCalendar;
  defaultCalendarForNewEvents : Store -> option EKCalendar;
  eventWithIdentifier_ : Store -> string -> option EKEvent;
  eventsMatchingPredicate_ : Store -> NSPredicate -> option (list EKEvent);
  eventWithEventStore_ : Store -> EKEvent;
  saveEvent_span_error_ : Store -> EKEvent -> Z -> HostReply Store;
  removeEvent_span_error_ : Store -> EKEvent -> Z -> HostReply Store;
  left_edited : Store -> EKEvent -> Store
}.

(** ** models.py *)

Module RecurrenceRule.
Inductive Frequency : Type := daily | weekly | monthly | yearly.

Record t : Type := {
  frequency : Frequency;
  interval : Z;
  end_date : option Py.datetime
}.
End RecurrenceRule.

Module Event.
Record t : Type := {
  identifier : string;
  title : string;
  start_time : Py.datetime;
  end_time : Py.datetime;
  calendar_name : string;
  location : option string;
  notes : option string;
  url : option string;
  all_day : bool;
  is_recurring : bool
}.

(** [Event.__str__] *)
Definition __str__ (self : t) : string :=
  let time_fmt := if all_day self then "%Y-%m-%d" else "%Y-%m-%d %H:%M" in
  let start := Py.strftime (start_time self) time_fmt in
  let end_ := Py.strftime (end_time self) time_fmt in
  let parts := [title self ++ " (" ++ start ++ " ~ " ++ end_ ++ ")"] in
  let parts :=
    if Py.truthy (calendar_name self)
    then Py.append parts ("[" ++ calendar_name self ++ "]") else parts in
  let parts :=
    match location self with
    | Some loc => if Py.truthy loc then Py.append parts ("@ " ++ loc) else parts
    | None => parts
    end in
  let parts := Py.append parts ("ID: " ++ identifier self) in
  Py.join " | " parts.

(** [x if x else None] after [str]: an empty string becomes [None]. *)
Definition str_or_None (x : option string) : option string :=
  match x with
  | Some s => if Py.truthy s then Some s else None
  | None => None
  end.

(** [Event.from_ekevent] *)
Definition from_ekevent {P : Platform} (ekevent : EKEvent) : t :=
  {| identifier := eventIdentifier ekevent;
     title := Py.or_empty (EventKit.title ekevent);
     start_time := fromtimestamp (startDate ekevent);
     end_time := fromtimestamp (endDate ekevent);
     calendar_name :=
       match calendar ekevent with
       | Some cal => calendar_title cal
       | None => ""
       end;
     location := str_or_None (EventKit.location ekevent);
     notes := str_or_None (EventKit.notes ekevent);
     url :=
       match URL ekevent with
       | Some u => Some (absoluteString u)
       | None => None
       end;
     all_day := isAllDay ekevent;
     is_recurring := hasRecurrenceRules ekevent |}.
End Event.

Module CreateEventRequest.
Record t : Type := {
  title : string;
  start_time : Py.datetime;
  end_time : Py.datetime;
  calendar_name : option string;
  location : option string;
  notes : option string;
  alarms_minutes_offsets : option (list Z);
  url : option string;
  all_day : bool;
  recurrence_rule : option RecurrenceRule.t
}.
End CreateEventRequest.

Module UpdateEventRequest.
(** Every field has the type [T | None] and the default [None]. *)
Record t : Type := {
  title : option string;
  start_time : option Py.datetime;
  end_time : option Py.datetime;
  calendar_name : option string;
  location : option string;
  notes : option string;
  alarms_minutes_offsets : option (list Z);
  url : option string;
  all_day : option bool;
  recurrence_rule : option RecurrenceRule.t
}.

(** How a caller supplies one field of the request: not at all, as
    null, or with a value. *)
Inductive Supplied (A : Type) : Type :=
| Absent
| Null
| Value (a : A).
Arguments Absent {A}.
Arguments Null {A}.
Arguments Value {A} a.

(** A field [x: T | None = None] of the model: the default [None] when
    the field is absent, and [None] again when null is supplied. *)
Definition field {A : Type} (x : Supplied A) : option A :=
  match x with
  | Absent => None
  | Null => None
  | Value a => Some a
  end.

(** The fields as a caller supplies them. *)
Record Fields : Type := {
  f_title : Supplied string;
  f_start_time : Supplied Py.datetime;
  f_end_time : Supplied Py.datetime;
  f_calendar_name : Supplied string;
  f_location : Supplied string;
  f_notes : Supplied string;
  f_alarms_minutes_offsets : Supplied (list Z);
  f_url : Supplied string;
  f_all_day : Supplied bool;
  f_recurrence_rule : Supplied RecurrenceRule.t
}.

(** The model instance that validation builds from the supplied fields. *)
Definition make (f : Fields) : t :=
  {| title := field (f_title f);
     start_time := field (f_start_time f);
     end_time := field (f_end_time f);
     calendar_name := field (f_calendar_name f);
     location := field (f_location f);
     notes := field (f_notes f);
     alarms_minutes_offsets := field (f_alarms_minutes_offsets f);
     url := field (f_url f);
     all_day := field (f_all_day f);
     recurrence_rule := field (f_recurrence_rule f) |}.
End UpdateEventRequest.

(** ** calendar.py: CalendarManager *)

(** The calls that change the store, as the host receives them. *)
Inductive HostCall : Type :=
| SaveEvent (ekevent : EKEvent) (span : Z)
| RemoveEvent (ekevent : EKEvent) (span : Z).

Module CalendarManager.

(** [self]: the store handle, and the journal of the mutating calls
    made through it. *)
Record t (Store : Type) : Type := {
  store : Store;
  journal : list HostCall
}.
Arguments store {Store} _.
Arguments journal {Store} _.

Section Methods.
Context {P : Platform} {L : Py.StrLower} {Store : Type} {ES : EventStore Store}.

(** [_to_nsdate] *)
Definition _to_nsdate (dt : Py.datetime) : NSDate := timestamp dt.

(** [_to_ek_recurrence] *)
Definition _to_ek_recurrence (rule : RecurrenceRule.t) : EKRecurrenceRule :=
  let freq_map f :=
    match f with
    | RecurrenceRule.daily => EKRecurrenceFrequencyDaily
    | RecurrenceRule.weekly => EKRecurrenceFrequencyWeekly
    | RecurrenceRule.monthly => EKRecurrenceFrequencyMonthly
    | RecurrenceRule.yearly => EKRecurrenceFrequencyYearly
    end in
  let end_ :=
    match RecurrenceRule.end_date rule with
    | Some d => Some (timestamp d)
    | None => None
    end in
  {| rule_frequency := freq_map (RecurrenceRule.frequency rule);
     rule_interval := RecurrenceRule.interval rule;
     recurrenceEnd := end_ |}.

(** [_find_calendar] *)
Definition _find_calendar (self : Store) (name : option string)
  : result EKCalendar :=
  match name with
  | None =>
      match defaultCalendarForNewEvents self with
      | None => Raise (CalendarError "기본 캘린더를 찾을 수 없습니다.")
      | Some default => Return default
      end
  | Some name =>
      match find (fun cal => String.eqb (calendar_title cal) name)
                 (calendarsForEntityType_ self) with
      | Some cal => Return cal
      | None => Raise (NoSuchCalendarError name)
      end
  end.

(** [_find_event] *)
Definition _find_event (self : Store) (event_id : string) : result EKEvent :=
  match eventWithIdentifier_ self event_id with
  | None => Raise (NoSuchEventError event_id)
  | Some ekevent => Return ekevent
  end.

(** [list_events], the first three lines: the value of [calendars]. *)
Definition calendars_filter (self : Store) (calendar_name : option string)
  : result (option (list EKCalendar)) :=
  match calendar_name with
  | Some name =>
      if Py.truthy name
      then cal <- _find_calendar self (Some name) ;; Return (Some [cal])
      else Return None
  | None => Return None
  end.

(** [list_events] *)
Definition list_events (self : Store) (start end_ : Py.datetime)
  (calendar_name : option string) : result (list Event.t) :=
  calendars <- calendars_filter self calendar_name ;;
  let ns_start := _to_nsdate start in
  let ns_end := _to_nsdate end_ in
  let predicate :=
    {| predicate_start := ns_start; predicate_end := ns_end;
       predicate_calendars := calendars |} in
  match eventsMatchingPredicate_ self predicate with
  | None => Return []
  | Some [] => Return []
  | Some ek_events =>
      Return (Py.sorted Event.start_time (map Event.from_ekevent ek_events))
  end.

(** The filter of [search_events], [kw] being the lowered keyword. *)
Definition matches (kw : string) (e : Event.t) : bool :=
  (Py.contains kw (Py.lower (Py.or_empty (Some (Event.title e))))
   || Py.contains kw (Py.lower (Py.or_empty (Event.notes e)))
   || Py.contains kw (Py.lower (Py.or_empty (Event.location e))))%bool.

(** [search_events]; [now] is what [datetime.now()] answers. *)
Definition search_events (self : Store) (now : Py.datetime) (keyword : string)
  (calendar_name : option string) (days_back days_forward : Z)
  : result (list Event.t) :=
  let start := now - Py.timedelta_days days_back in
  let end_ := now + Py.timedelta_days days_forward in
  events <- list_events self start end_ calendar_name ;;
  let kw := Py.lower keyword in
  Return (filter (matches kw) events).

(** The defaults of the optional parameters of [search_events]. *)
Definition default_days_back : Z := 30.
Definition default_days_forward : Z := 90.

(** ** The mutating methods *)

Definition saveEvent (ekevent : EKEvent) (span : Z)
  : StateErr (t Store) (HostReply Store) :=
  fun self =>
    let reply := saveEvent_span_error_ (store self) ekevent span in
    (Return reply,
     {| store := store_after reply;
        journal := (journal self ++ [SaveEvent ekevent span])%list |}).

Definition removeEvent (ekevent : EKEvent) (span : Z)
  : StateErr (t Store) (HostReply Store) :=
  fun self =>
    let reply := removeEvent_span_error_ (store self) ekevent span in
    (Return reply,
     {| store := store_after reply;
        journal := (journal self ++ [RemoveEvent ekevent span])%list |}).

(** Runs a block that mutates in place the object [ekevent], a new
    object that the store has not yet received; the block reads the
    store and does not change it.  When the block raises, the object is
    out of reach and nothing is left of it. *)
Definition mutating (ekevent : EKEvent)
  (block : Store -> StateErr EKEvent unit) : StateErr (t Store) EKEvent :=
  fun self =>
    match block (store self) ekevent with
    | (Return _, ekevent') => (Return ekevent', self)
    | (Raise e, _) => (Raise e, self)
    end.

(** Runs a block that mutates in place the object [ekevent] that the
    store handed out.  When the block returns, the object goes on to the
    save.  When it raises, the setters that ran before have changed the
    object of the store, which is left edited and unsaved. *)
Definition mutating_found (ekevent : EKEvent)
  (block : Store -> StateErr EKEvent unit) : StateErr (t Store) EKEvent :=
  fun self =>
    match block (store self) ekevent with
    | (Return _, ekevent') => (Return ekevent', self)
    | (Raise e, ekevent') =>
        (Raise e,
         {| store := left_edited (store self) ekevent';
            journal := journal self |})
    end.

(** The body of [if req.alarms_minutes_offsets is not None:]. *)
Definition replace_alarms (minutes_offsets : list Z) : StateErr EKEvent unit :=
  ekevent <- get ;;
  for_each (match alarms ekevent with Some l => l | None => [] end)
    (fun alarm => modify (removeAlarm_ alarm)) ;;
  for_each minutes_offsets (fun minutes =>
    let alarm := alarmWithRelativeOffset_ (-60 * minutes) in
    modify (addAlarm_ alarm)).

(** The body of [if req.recurrence_rule is not None:]. *)
Definition replace_recurrence_rule (rule : RecurrenceRule.t)
  : StateErr EKEvent unit :=
  ekevent <- get ;;
  for_each (match recurrenceRules ekevent with Some l => l | None => [] end)
    (fun rule => modify (removeRecurrenceRule_ rule)) ;;
  modify (addRecurrenceRule_ (_to_ek_recurrence rule)).

(** The body of [if req.calendar_name is not None:]. *)
Definition assign_calendar (self : Store) (calendar_name : string)
  : StateErr EKEvent unit :=
  cal <- lift (fun _ => _find_calendar self (Some calendar_name)) ;;
  modify (setCalendar_ cal).

(** [update_event], from the first [if] to the replacement of the
    recurrence rules: the edits of the object. *)
Definition update_event_edits (req : UpdateEventRequest.t) (self : Store)
  : StateErr EKEvent unit :=
  if_not_None (UpdateEventRequest.title req) (fun v =>
    modify (setTitle_ v)) ;;
  if_not_None (UpdateEventRequest.start_time req) (fun v =>
    modify (setStartDate_ (_to_nsdate v))) ;;
  if_not_None (UpdateEventRequest.end_time req) (fun v =>
    modify (setEndDate_ (_to_nsdate v))) ;;
  if_not_None (UpdateEventRequest.all_day req) (fun v =>
    modify (setAllDay_ v)) ;;
  if_not_None (UpdateEventRequest.location req) (fun v =>
    modify (setLocation_ v)) ;;
  if_not_None (UpdateEventRequest.notes req) (fun v =>
    modify (setNotes_ v)) ;;
  if_not_None (UpdateEventRequest.url req) (fun v =>
    modify (setURL_ (URLWithString_ v))) ;;
  if_not_None (UpdateEventRequest.calendar_name req) (assign_calendar self) ;;
  if_not_None (UpdateEventRequest.alarms_minutes_offsets req) replace_alarms ;;
  if_not_None (UpdateEventRequest.recurrence_rule req) replace_recurrence_rule.

(** [update_event] *)
Definition update_event (event_id : string) (req : UpdateEventRequest.t)
  : StateErr (t Store) Event.t :=
  ekevent <- lift (fun self => _find_event (store self) event_id) ;;
  ekevent <- mutating_found ekevent (update_event_edits req) ;;
  let span :=
    if hasRecurrenceRules ekevent then EKSpanFutureEvents
    else EKSpanThisEvent in
  reply <- saveEvent ekevent span ;;
  if negb (success reply)
  then raise (CalendarError ("이벤트 수정 실패: " ++ error reply))
  else ret (Event.from_ekevent (object_after reply)).

(** [delete_event] *)
Definition delete_event (event_id : string) : StateErr (t Store) string :=
  ekevent <- lift (fun self => _find_event (store self) event_id) ;;
  let title := Py.str_of (EventKit.title ekevent) in
  let span :=
    if hasRecurrenceRules ekevent then EKSpanFutureEvents
    else EKSpanThisEvent in
  reply <- removeEvent ekevent span ;;
  if negb (success reply)
  then raise (CalendarError ("이벤트 삭제 실패: " ++ error reply))
  else ret title.

(** [if x:] for [x : str | None]. *)
Definition if_truthy {S : Type} (x : option string)
  (body : string -> StateErr S unit) : StateErr S unit :=
  match x with
  | Some s => if Py.truthy s then body s else ret tt
  | None => ret tt
  end.

(** [create_event], from the first setter to [setCalendar_]. *)
Definition create_event_edits (req : CreateEventRequest.t) (self : Store)
  : StateErr EKEvent unit :=
  modify (setTitle_ (CreateEventRequest.title req)) ;;
  modify (setStartDate_ (_to_nsdate (CreateEventRequest.start_time req))) ;;
  modify (setEndDate_ (_to_nsdate (CreateEventRequest.end_time req))) ;;
  modify (setAllDay_ (CreateEventRequest.all_day req)) ;;
  if_truthy (CreateEventRequest.location req) (fun v =>
    modify (setLocation_ v)) ;;
  if_truthy (CreateEventRequest.notes req) (fun v =>
    modify (setNotes_ v)) ;;
  if_truthy (CreateEventRequest.url req) (fun v =>
    modify (setURL_ (URLWithString_ v))) ;;
  match CreateEventRequest.alarms_minutes_offsets req with
  | Some (m :: ms) =>
      for_each (m :: ms) (fun minutes =>
        let alarm := alarmWithRelativeOffset_ (-60 * minutes) in
        modify (addAlarm_ alarm))
  | _ => ret tt
  end ;;
  if_not_None (CreateEventRequest.recurrence_rule req) (fun v =>
    modify (addRecurrenceRule_ (_to_ek_recurrence v))) ;;
  calendar <- lift (fun _ =>
    _find_calendar self (CreateEventRequest.calendar_name req)) ;;
  modify (setCalendar_ calendar).

(** [create_event] *)
Definition create_event (req : CreateEventRequest.t)
  : StateErr (t Store) Event.t :=
  ekevent <- lift (fun self => Return (eventWithEventStore_ (store self))) ;;
  ekevent <- mutating ekevent (create_event_edits req) ;;
  reply <- saveEvent ekevent EKSpanThisEvent ;;
  if negb (success reply)
  then raise (CalendarError ("이벤트 생성 실패: " ++ error reply))
  else ret (Event.from_ekevent (object_after reply)).

(** [list_calendars] *)
Definition list_calendars (self : Store) : list string :=
  Py.sorted_str (map calendar_title (calendarsForEntityType_ self)).

End Methods.

(** *** Construction and the request for access *)

Definition EKAuthorizationStatusAuthorized : Z := 3.
Definition EKAuthorizationStatusFullAccess : Z := 4.

(** The part of the host that grants access.  A call that lets the host
    run can have the host invoke the completion callback: the answer
    then comes with the new state of the host, [Some success], and is
    [None] when the callback was not invoked during the call. *)
Class AccessControl (Store : Type) : Type := {
  authorizationStatusForEntityType_ : Store -> Z;
  has_requestFullAccessToEventsWithCompletion_ : Store -> bool;
  requestFullAccessToEventsWithCompletion_ : Store -> Store * option bool;
  requestAccessToEntityType_completion_ : Store -> Store * option bool;
  runUntilDate_ : Store -> Store * option bool
}.

Section Access.
Context {Store : Type} {AC : AccessControl Store}.

(** The variables [result] and [done] of [_request_access], and what
    [callback] does to them. *)
Definition callback (success : bool) (vars : option bool * bool)
  : option bool * bool :=
  (Some success, true).

Definition deliver (invoked : option bool) (vars : option bool * bool)
  : option bool * bool :=
  match invoked with
  | Some success => callback success vars
  | None => vars
  end.

(** [while not done.is_set(): runUntilDate_(...)], at most [fuel]
    rounds; [None] when the rounds do not suffice. *)
Fixpoint run_loop (fuel : nat) (self : Store) (vars : option bool * bool)
  : option (Store * (option bool * bool)) :=
  if snd vars then Some (self, vars)
  else
    match fuel with
    | O => None
    | S fuel' =>
        let '(self', invoked) := runUntilDate_ self in
        run_loop fuel' self' (deliver invoked vars)
    end.

Definition access_denied : string :=
  "캘린더 접근 권한이 거부되었습니다." ++ Py.LF
  ++ "System Settings > Privacy & Security > Calendar에서 터미널 앱을 허용하세요.".

(** [_request_access] *)
Definition _request_access (fuel : nat) (self : Store)
  : option (result unit * Store) :=
  let status := authorizationStatusForEntityType_ self in
  if ((status =? EKAuthorizationStatusAuthorized)
      || (status =? EKAuthorizationStatusFullAccess))%bool
  then Some (Return tt, self)
  else
    let vars := (None, false) in
    let '(self, invoked) :=
      if has_requestFullAccessToEventsWithCompletion_ self
      then requestFullAccessToEventsWithCompletion_ self
      else requestAccessToEntityType_completion_ self in
    match run_loop fuel self (deliver invoked vars) with
    | None => None
    | Some (self, (result0, _)) =>
        match result0 with
        | Some true => Some (Return tt, self)
        | _ => Some (Raise (CalendarError access_denied), self)
        end
    end.

(** [__init__], [alloc] being what [EKEventStore.alloc().init()] gives. *)
Definition __init__ (fuel : nat) (alloc : Store) : option (result (t Store)) :=
  match _request_access fuel alloc with
  | None => None
  | Some (Return _, self) => Some (Return {| store := self; journal := [] |})
  | Some (Raise e, _) => Some (Raise e)
  end.

End Access.
End CalendarManager.

(** ** server.py: the tools *)

Module Server.
Import CalendarManager.

Section Tools.
Context {P : Platform} {L : Py.StrLower} {Store : Type} {ES : EventStore Store}.

(** What [CalendarManager()] does when it is called. *)
Variable new_manager : result (t Store).

(** [_get_manager], on the global [_manager]. *)
Definition _get_manager : StateErr (option (t Store)) (t Store) :=
  fun _manager =>
    match _manager with
    | None =>
        match new_manager with
        | Return m => (Return m, Some m)
        | Raise e => (Raise e, None)
        end
    | Some m => (Return m, Some m)
    end.

(** [_get_manager().method(...)]: the method runs on the object the
    global refers to. *)
Definition on_manager {A : Type} (method : StateErr (t Store) A)
  : StateErr (option (t Store)) A :=
  fun _manager =>
    match _get_manager _manager with
    | (Return m, _manager') =>
        let '(r, m') := method m in
        (r, Some m')
    | (Raise e, _manager') => (Raise e, _manager')
    end.

(** [except CalendarError as e: return f"Error: {e}"] *)
Definition or_error {A : Type} (r : result A) (body : A -> string) : string :=
  match r with
  | Return a => body a
  | Raise e => "Error: " ++ message e
  end.

(** [resource_calendars] *)
Definition resource_calendars (_manager : option (t Store))
  : string * option (t Store) :=
  let '(r, _manager) :=
    on_manager (lift (fun m => Return (list_calendars (store m)))) _manager in
  (or_error r (fun calendars =>
     Py.join Py.LF (map (fun name => "- " ++ name) calendars)),
   _manager).

(** The tool [list_events] *)
Definition list_events (start_date end_date : Py.datetime)
  (calendar_name : option string) (_manager : option (t Store))
  : string * option (t Store) :=
  let '(r, _manager) :=
    on_manager (lift (fun m =>
      CalendarManager.list_events (store m) start_date end_date calendar_name))
      _manager in
  (or_error r (fun events =>
     match events with
     | [] => "해당 기간에 이벤트가 없습니다."
     | _ :: _ => Py.join Py.LF (map Event.__str__ events)
     end),
   _manager).

(** The tool [search_events]; [now] is what [datetime.now()] answers. *)
Definition search_events (now : Py.datetime) (keyword : string)
  (calendar_name : option string) (_manager : option (t Store))
  : string * option (t Store) :=
  let '(r, _manager) :=
    on_manager (lift (fun m =>
      CalendarManager.search_events (store m) now keyword calendar_name
        default_days_back default_days_forward))
      _manager in
  (or_error r (fun events =>
     match events with
     | [] => "'" ++ keyword ++ "' 관련 이벤트를 찾을 수 없습니다."
     | _ :: _ =>
         "검색 결과 (" ++ Py.str_of_len events ++ "건):" ++ Py.LF
         ++ Py.join Py.LF (map Event.__str__ events)
     end),
   _manager).

(** The tool [create_event]; an [Event] is never falsy, so the branch
    [if not event] is not taken. *)
Definition create_event (create_event_request : CreateEventRequest.t)
  (_manager : option (t Store)) : string * option (t Store) :=
  let '(r, _manager) :=
    on_manager (CalendarManager.create_event create_event_request) _manager in
  (or_error r (fun event =>
     "이벤트 생성 완료: " ++ Event.title event ++ " (ID: "
     ++ Event.identifier event ++ ")"),
   _manager).

(** The tool [update_event] *)
Definition update_event (event_id : string)
  (update_event_request : UpdateEventRequest.t) (_manager : option (t Store))
  : string * option (t Store) :=
  let '(r, _manager) :=
    on_manager (CalendarManager.update_event event_id update_event_request)
      _manager in
  (or_error r (fun event =>
     "이벤트 수정 완료: " ++ Event.title event ++ " (ID: "
     ++ Event.identifier event ++ ")"),
   _manager).

(** The tool [delete_event] *)
Definition delete_event (event_id : string) (_manager : option (t Store))
  : string * option (t Store) :=
  let '(r, _manager) :=
    on_manager (CalendarManager.delete_event event_id) _manager in
  (or_error r (fun title => "이벤트 삭제 완료: " ++ title), _manager).

End Tools.
End Server.

(** ** cli.py: the windows of [week] and [today] *)

Module Cli.

(** [week], up to the call of [list_events]: the bounds [start] and
    [end]. *)
Definition week_window (now : Py.datetime) (offset : Z)
  : Py.datetime * Py.datetime :=
  let start :=
    Py.at_midnight
      (now - Py.timedelta_days (Py.weekday now) + Py.timedelta_weeks offset) in
  let end_ := start + Py.timedelta_days 7 in
  (start, end_).

(** [today], up to the call of [list_events]. *)
Definition today_window (now : Py.datetime) : Py.datetime * Py.datetime :=
  let start := Py.at_midnight now in
  let end_ := start + Py.timedelta_days 1 in
  (start, end_).

Section Commands.
Context {P : Platform} {Store : Type} {ES : EventStore Store}.

(** The events [week] goes on to print. *)
Definition week_events (self : Store) (now : Py.datetime) (offset : Z)
  : result (list Event.t) :=
  let '(start, end_) := week_window now offset in
  CalendarManager.list_events self start end_ None.

(** The events [today] goes on to print. *)
Definition today_events (self : Store) (now : Py.datetime)
  : result (list Event.t) :=
  let '(start, end_) := today_window now in
  CalendarManager.list_events self start end_ None.

End Commands.
End Cli.

(** ** A test double of the host

    An in-memory store and a fixed-offset clock, in the role a mock of
    [EventKit] plays in a unit test.  The theorems below hold for every
    host; this one serves to run the methods on concrete inputs. *)

Module Mock.

Record Store : Type := {
  calendars : list EKCalendar;
  default_calendar : option EKCalendar;
  events : list EKEvent;
  write_error : option string;
  unsaved : list EKEvent
}.
(* [unsaved] holds the objects that were edited in place and not saved;
   the lookups of the double read [events]. *)

Definition same_calendar (a b : EKCalendar) : bool :=
  String.eqb (calendarIdentifier a) (calendarIdentifier b).

Definition in_calendars (filter : option (list EKCalendar)) (e : EKEvent) : bool :=
  match filter with
  | None => true
  | Some cals =>
      match calendar e with
      | Some c => existsb (same_calendar c) cals
      | None => false
      end
  end.

Definition overlaps (p : NSPredicate) (e : EKEvent) : bool :=
  ((startDate e <=? predicate_end p) && (predicate_start p <=? endDate e))%bool.

Definition has_identifier (event_id : string) (e : EKEvent) : bool :=
  String.eqb (eventIdentifier e) event_id.

Definition blank_event : EKEvent :=
  {| eventIdentifier := "new"; title := None; startDate := 0; endDate := 0;
     isAllDay := false; location := None; notes := None; URL := None;
     calendar := None; alarm_objects := []; rule_objects := [] |}.

Definition write (s : Store) (e : EKEvent) (change : list EKEvent -> list EKEvent)
  : HostReply Store :=
  match write_error s with
  | Some diagnostic =>
      {| success := false; error := diagnostic; object_after := e;
         store_after := s |}
  | None =>
      {| success := true; error := "None"; object_after := e;
         store_after :=
           {| calendars := calendars s; default_calendar := default_calendar s;
              events := change (events s); write_error := None;
              unsaved := unsaved s |} |}
  end.

Definition without (e : EKEvent) (l : list EKEvent) : list EKEvent :=
  filter (fun x => negb (has_identifier (eventIdentifier e) x)) l.

#[global] Instance event_store : EventStore Store := {
  calendarsForEntityType_ := calendars;
  defaultCalendarForNewEvents := default_calendar;
  eventWithIdentifier_ := fun s event_id =>
    find (has_identifier event_id) (events s);
  eventsMatchingPredicate_ := fun s p =>
    nil_if_empty (filter (fun e => overlaps p e && in_calendars (predicate_calendars p) e)%bool
                         (events s));
  eventWithEventStore_ := fun _ => blank_event;
  saveEvent_span_error_ := fun s e _ =>
    write s e (fun l => (without e l ++ [e])%list);
  removeEvent_span_error_ := fun s e _ => write s e (without e);
  left_edited := fun s e =>
    {| calendars := calendars s; default_calendar := default_calendar s;
       events := events s; write_error := write_error s;
       unsaved := (unsaved s ++ [e])%list |}
}.

(** 1970-01-01 is day 719162; the clock is UTC. *)
Definition epoch : Z := 719162 * Py.us_per_day.

#[global] Instance platform : Platform := {
  timestamp := fun dt => dt - epoch;
  fromtimestamp := fun ts => ts + epoch;
  URLWithString_ := fun s =>
    if Py.truthy s then Some {| absoluteString := s |} else None
}.

(** [str.lower] on ASCII text. *)
Definition ascii_fold : Py.StrLower.
Proof.
  refine {| Py.lower := Py.ascii_lower; Py.lower_empty := eq_refl;
            Py.lower_not_empty := _ |}.
  intros [|c s] H; [reflexivity | discriminate H].
Defined.

(** [datetime(y, m, d, H, M)] for a date given by its day number. *)
Definition at_day (day_number H M : Z) : Py.datetime :=
  day_number * Py.us_per_day + H * Py.us_per_hour + M * Py.us_per_minute.

(** 2026-02-12 is day 739658. *)
Definition feb12 (H M : Z) : Py.datetime := at_day 739658 H M.

Definition work : EKCalendar :=
  {| calendarIdentifier := "cal-1"; calendar_title := "Work" |}.
Definition home : EKCalendar :=
  {| calendarIdentifier := "cal-2"; calendar_title := "Home" |}.
Definition work_again : EKCalendar :=
  {| calendarIdentifier := "cal-3"; calendar_title := "Work" |}.

Definition every_week : EKRecurrenceRule :=
  {| rule_frequency := EKRecurrenceFrequencyWeekly; rule_interval := 1;
     recurrenceEnd := None |}.

Definition standup : EKEvent :=
  {| eventIdentifier := "E1"; title := Some "Standup";
     startDate := timestamp (feb12 10 0); endDate := timestamp (feb12 10 30);
     isAllDay := false; location := Some "Room 4"; notes := None; URL := None;
     calendar := Some work;
     alarm_objects := [alarmWithRelativeOffset_ (-900)];
     rule_objects := [every_week] |}.

Definition lunch : EKEvent :=
  {| eventIdentifier := "E2"; title := Some "Lunch";
     startDate := timestamp (feb12 10 0); endDate := timestamp (feb12 11 0);
     isAllDay := false; location := None; notes := Some "Bring the FOO report";
     URL := None; calendar := Some home; alarm_objects := [];
     rule_objects := [] |}.

Definition offsite : EKEvent :=
  {| eventIdentifier := "E3"; title := Some "Offsite";
     startDate := timestamp (feb12 0 0); endDate := timestamp (at_day 739659 0 0);
     isAllDay := true; location := None; notes := None; URL := None;
     calendar := None; alarm_objects := []; rule_objects := [] |}.

Definition sample : Store :=
  {| calendars := [home; work; work_again]; default_calendar := Some home;
     events := [standup; lunch; offsite]; write_error := None; unsaved := [] |}.

Definition no_default : Store :=
  {| calendars := [home; work]; default_calendar := None;
     events := []; write_error := None; unsaved := [] |}.

Definition read_only : Store :=
  {| calendars := [home; work]; default_calendar := Some home;
     events := [standup; lunch]; write_error := Some "store is read-only";
     unsaved := [] |}.

Definition manager (s : Store) : CalendarManager.t Store :=
  {| CalendarManager.store := s; CalendarManager.journal := [] |}.

(** Requests. *)
Definition nothing : UpdateEventRequest.Fields :=
  {| UpdateEventRequest.f_title := UpdateEventRequest.Absent;
     UpdateEventRequest.f_start_time := UpdateEventRequest.Absent;
     UpdateEventRequest.f_end_time := UpdateEventRequest.Absent;
     UpdateEventRequest.f_calendar_name := UpdateEventRequest.Absent;
     UpdateEventRequest.f_location := UpdateEventRequest.Absent;
     UpdateEventRequest.f_notes := UpdateEventRequest.Absent;
     UpdateEventRequest.f_alarms_minutes_offsets := UpdateEventRequest.Absent;
     UpdateEventRequest.f_url := UpdateEventRequest.Absent;
     UpdateEventRequest.f_all_day := UpdateEventRequest.Absent;
     UpdateEventRequest.f_recurrence_rule := UpdateEventRequest.Absent |}.

(** Alarms and recurrence rule supplied as null, nothing else supplied. *)
Definition nulls : UpdateEventRequest.Fields :=
  {| UpdateEventRequest.f_title := UpdateEventRequest.Absent;
     UpdateEventRequest.f_start_time := UpdateEventRequest.Absent;
     UpdateEventRequest.f_end_time := UpdateEventRequest.Absent;
     UpdateEventRequest.f_calendar_name := UpdateEventRequest.Absent;
     UpdateEventRequest.f_location := UpdateEventRequest.Absent;
     UpdateEventRequest.f_notes := UpdateEventRequest.Absent;
     UpdateEventRequest.f_alarms_minutes_offsets := UpdateEventRequest.Null;
     UpdateEventRequest.f_url := UpdateEventRequest.Absent;
     UpdateEventRequest.f_all_day := UpdateEventRequest.Absent;
     UpdateEventRequest.f_recurrence_rule := UpdateEventRequest.Null |}.

(** The empty list of alarms supplied, nothing else. *)
Definition no_alarms : UpdateEventRequest.Fields :=
  {| UpdateEventRequest.f_title := UpdateEventRequest.Absent;
     UpdateEventRequest.f_start_time := UpdateEventRequest.Absent;
     UpdateEventRequest.f_end_time := UpdateEventRequest.Absent;
     UpdateEventRequest.f_calendar_name := UpdateEventRequest.Absent;
     UpdateEventRequest.f_location := UpdateEventRequest.Absent;
     UpdateEventRequest.f_notes := UpdateEventRequest.Absent;
     UpdateEventRequest.f_alarms_minutes_offsets := UpdateEventRequest.Value [];
     UpdateEventRequest.f_url := UpdateEventRequest.Absent;
     UpdateEventRequest.f_all_day := UpdateEventRequest.Absent;
     UpdateEventRequest.f_recurrence_rule := UpdateEventRequest.Absent |}.

(** A new title, a move to the calendar Work, two alarms. *)
Definition retitle : UpdateEventRequest.t :=
  {| UpdateEventRequest.title := Some "Daily standup";
     UpdateEventRequest.start_time := None;
     UpdateEventRequest.end_time := None;
     UpdateEventRequest.calendar_name := Some "Work";
     UpdateEventRequest.location := None;
     UpdateEventRequest.notes := None;
     UpdateEventRequest.alarms_minutes_offsets := Some [5; 30];
     UpdateEventRequest.url := None;
     UpdateEventRequest.all_day := None;
     UpdateEventRequest.recurrence_rule := None |}.

(** The empty string as calendar name. *)
Definition to_unnamed : UpdateEventRequest.t :=
  {| UpdateEventRequest.title := None;
     UpdateEventRequest.start_time := None;
     UpdateEventRequest.end_time := None;
     UpdateEventRequest.calendar_name := Some "";
     UpdateEventRequest.location := None;
     UpdateEventRequest.notes := None;
     UpdateEventRequest.alarms_minutes_offsets := None;
     UpdateEventRequest.url := None;
     UpdateEventRequest.all_day := None;
     UpdateEventRequest.recurrence_rule := None |}.

Definition new_in_unnamed : CreateEventRequest.t :=
  {| CreateEventRequest.title := "Standup";
     CreateEventRequest.start_time := feb12 10 0;
     CreateEventRequest.end_time := feb12 10 30;
     CreateEventRequest.calendar_name := Some "";
     CreateEventRequest.location := None;
     CreateEventRequest.notes := None;
     CreateEventRequest.alarms_minutes_offsets := None;
     CreateEventRequest.url := None;
     CreateEventRequest.all_day := false;
     CreateEventRequest.recurrence_rule := None |}.

(** An event without a title, alone in its store. *)
Definition untitled : EKEvent :=
  {| eventIdentifier := "E7"; title := None;
     startDate := timestamp (feb12 9 0); endDate := timestamp (feb12 9 30);
     isAllDay := false; location := Some ""; notes := None; URL := None;
     calendar := Some home; alarm_objects := []; rule_objects := [] |}.

Definition drafts : Store :=
  {| calendars := [home; work]; default_calendar := Some home;
     events := [untitled]; write_error := None; unsaved := [] |}.

(** A new recurring event with two alarms, no calendar named. *)
Definition new_weekly : CreateEventRequest.t :=
  {| CreateEventRequest.title := "Review";
     CreateEventRequest.start_time := feb12 14 0;
     CreateEventRequest.end_time := feb12 15 0;
     CreateEventRequest.calendar_name := None;
     CreateEventRequest.location := Some "";
     CreateEventRequest.notes := Some "Agenda";
     CreateEventRequest.alarms_minutes_offsets := Some [15; 60];
     CreateEventRequest.url := None;
     CreateEventRequest.all_day := false;
     CreateEventRequest.recurrence_rule :=
       Some {| RecurrenceRule.frequency := RecurrenceRule.weekly;
               RecurrenceRule.interval := 1;
               RecurrenceRule.end_date := None |} |}.

(** A new title and a move to a calendar that does not exist. *)
Definition rename_and_misplace : UpdateEventRequest.t :=
  {| UpdateEventRequest.title := Some "Renamed";
     UpdateEventRequest.start_time := None;
     UpdateEventRequest.end_time := None;
     UpdateEventRequest.calendar_name := Some "Nope";
     UpdateEventRequest.location := None;
     UpdateEventRequest.notes := None;
     UpdateEventRequest.alarms_minutes_offsets := Some [];
     UpdateEventRequest.url := None;
     UpdateEventRequest.all_day := None;
     UpdateEventRequest.recurrence_rule := None |}.

(** A new location and nothing else; an emptied location and nothing
    else. *)
Definition relocate (where_ : string) : UpdateEventRequest.t :=
  {| UpdateEventRequest.title := None;
     UpdateEventRequest.start_time := None;
     UpdateEventRequest.end_time := None;
     UpdateEventRequest.calendar_name := None;
     UpdateEventRequest.location := Some where_;
     UpdateEventRequest.notes := None;
     UpdateEventRequest.alarms_minutes_offsets := None;
     UpdateEventRequest.url := None;
     UpdateEventRequest.all_day := None;
     UpdateEventRequest.recurrence_rule := None |}.

(** The host as it grants access: the status, whether the request for
    full access exists, the answer it will give, the rounds of the run
    loop before it gives it ([None]: it never does), and the requests
    received. *)
Record Gate : Type := {
  status : Z;
  full_access_api : bool;
  answer : bool;
  rounds : option nat;
  requests : list string
}.

Definition ask (api : string) (g : Gate) : Gate * option bool :=
  ({| status := status g; full_access_api := full_access_api g;
      answer := answer g; rounds := rounds g;
      requests := (requests g ++ [api])%list |}, None).

Definition turn (g : Gate) : Gate * option bool :=
  match requests g, rounds g with
  | [], _ => (g, None)
  | _ :: _, None => (g, None)
  | _ :: _, Some O => (g, Some (answer g))
  | _ :: _, Some (S n) =>
      ({| status := status g; full_access_api := full_access_api g;
          answer := answer g; rounds := Some n; requests := requests g |},
       None)
  end.

#[global] Instance access_control : CalendarManager.AccessControl Gate := {
  CalendarManager.authorizationStatusForEntityType_ := status;
  CalendarManager.has_requestFullAccessToEventsWithCompletion_ := full_access_api;
  CalendarManager.requestFullAccessToEventsWithCompletion_ := ask "full";
  CalendarManager.requestAccessToEntityType_completion_ := ask "events";
  CalendarManager.runUntilDate_ := turn
}.

(** Not yet determined, the answer after three rounds. *)
Definition undetermined (grant : bool) : Gate :=
  {| status := 0; full_access_api := true; answer := grant;
     rounds := Some 3%nat; requests := [] |}.

(** Not yet determined, and no answer ever. *)
Definition silent : Gate :=
  {| status := 0; full_access_api := false; answer := true;
     rounds := None; requests := [] |}.

Definition authorized : Gate :=
  {| status := 3; full_access_api := false; answer := false;
     rounds := None; requests := [] |}.

End Mock.

(** ** What the edits of an update are expected to leave

    These definitions are not part of the program: they say, field by
    field, which object [update_event] is expected to hand to the store. *)

Definition keep_or {A B : Type} (x : option A) (new : A -> B) (old : B) : B :=
  match x with
  | Some v => new v
  | None => old
  end.

Definition alarms_for (minutes : list Z) : list EKAlarm :=
  map (fun m => alarmWithRelativeOffset_ (-60 * m)) minutes.

(** The object after the edits of [req], [cal] being the calendar its
    [calendar_name] resolved to. *)
Definition edited {P : Platform} (req : UpdateEventRequest.t)
  (cal : option EKCalendar) (e : EKEvent) : EKEvent :=
  {| eventIdentifier := eventIdentifier e;
     title := keep_or (UpdateEventRequest.title req) Some (title e);
     startDate :=
       keep_or (UpdateEventRequest.start_time req) CalendarManager._to_nsdate
               (startDate e);
     endDate :=
       keep_or (UpdateEventRequest.end_time req) CalendarManager._to_nsdate
               (endDate e);
     isAllDay := keep_or (UpdateEventRequest.all_day req) (fun v => v) (isAllDay e);
     location := keep_or (UpdateEventRequest.location req) Some (location e);
     notes := keep_or (UpdateEventRequest.notes req) Some (notes e);
     URL := keep_or (UpdateEventRequest.url req) URLWithString_ (URL e);
     calendar := keep_or cal Some (calendar e);
     alarm_objects :=
       keep_or (UpdateEventRequest.alarms_minutes_offsets req) alarms_for
               (alarm_objects e);
     rule_objects :=
       keep_or (UpdateEventRequest.recurrence_rule req)
               (fun r => [CalendarManager._to_ek_recurrence r])
               (rule_objects e) |}.

(** The request cut down to the fields that [update_event] applies
    before it resolves the calendar. *)
Definition before_calendar (req : UpdateEventRequest.t) : UpdateEventRequest.t :=
  {| UpdateEventRequest.title := UpdateEventRequest.title req;
     UpdateEventRequest.start_time := UpdateEventRequest.start_time req;
     UpdateEventRequest.end_time := UpdateEventRequest.end_time req;
     UpdateEventRequest.calendar_name := None;
     UpdateEventRequest.location := UpdateEventRequest.location req;
     UpdateEventRequest.notes := UpdateEventRequest.notes req;
     UpdateEventRequest.alarms_minutes_offsets := None;
     UpdateEventRequest.url := UpdateEventRequest.url req;
     UpdateEventRequest.all_day := UpdateEventRequest.all_day req;
     UpdateEventRequest.recurrence_rule := None |}.

(** The resolution of the calendar name of a request, when it has one. *)
Definition resolved {Store : Type} {ES : EventStore Store} (self : Store)
  (req : UpdateEventRequest.t) : result (option EKCalendar) :=
  match UpdateEventRequest.calendar_name req with
  | None => Return None
  | Some name =>
      match CalendarManager._find_calendar self (Some name) with
      | Return cal => Return (Some cal)
      | Raise e => Raise e
      end
  end.

(** The flat line as the specification words it:
    [{title} ({start} ~ {end}) [calendar] @ location | ID: {identifier}],
    the dates without the time of day when the event is all-day. *)
Definition spec_flat_line (e : Event.t) : string :=
  let fmt := if Event.all_day e then "%Y-%m-%d" else "%Y-%m-%d %H:%M" in
  Event.title e ++ " (" ++ Py.strftime (Event.start_time e) fmt ++ " ~ "
  ++ Py.strftime (Event.end_time e) fmt ++ ") [" ++ Event.calendar_name e
  ++ "] @ " ++ match Event.location e with Some l => l | None => "" end
  ++ " | ID: " ++ Event.identifier e.

(** What the host found for a predicate, nil read as no event. *)
Definition found_by {Store : Type} {ES : EventStore Store} (self : Store)
  (predicate : NSPredicate) : list EKEvent :=
  match eventsMatchingPredicate_ self predicate with
  | Some l => l
  | None => []
  end.

(** [list_events] returns what the host found for the window in
    [calendars] ([None]: in every calendar), converted, in ascending
    order of start time, events of equal start time in the order of the
    host; and the empty list exactly when the host found nothing. *)
Definition lists_what_host_found {P : Platform} {Store : Type}
  {ES : EventStore Store} (self : Store) (start end_ : Py.datetime)
  (calendar_name : option string) (calendars : option (list EKCalendar))
  : Prop :=
  let found :=
    map Event.from_ekevent
      (found_by self
         {| predicate_start := CalendarManager._to_nsdate start;
            predicate_end := CalendarManager._to_nsdate end_;
            predicate_calendars := calendars |}) in
  exists events,
    CalendarManager.list_events self start end_ calendar_name = Return events
    /\ Permutation events found
    /\ StronglySorted (Py.key_le Event.start_time) events
    /\ (forall k,
         filter (fun e => Event.start_time e =? k) events
         = filter (fun e => Event.start_time e =? k) found)
    /\ (events = [] <-> found = []).

(** The span the source computes before a save or a removal. *)
Definition span_for (e : EKEvent) : Z :=
  if hasRecurrenceRules e then EKSpanFutureEvents else EKSpanThisEvent.

(** No field that the request leaves absent differs between [e] and [e']. *)
Definition absent_fields_untouched (req : UpdateEventRequest.t)
  (e e' : EKEvent) : Prop :=
  eventIdentifier e' = eventIdentifier e
  /\ (UpdateEventRequest.title req = None -> title e' = title e)
  /\ (UpdateEventRequest.start_time req = None -> startDate e' = startDate e)
  /\ (UpdateEventRequest.end_time req = None -> endDate e' = endDate e)
  /\ (UpdateEventRequest.all_day req = None -> isAllDay e' = isAllDay e)
  /\ (UpdateEventRequest.location req = None -> location e' = location e)
  /\ (UpdateEventRequest.notes req = None -> notes e' = notes e)
  /\ (UpdateEventRequest.url req = None -> URL e' = URL e)
  /\ (UpdateEventRequest.calendar_name req = None -> calendar e' = calendar e)
  /\ (UpdateEventRequest.alarms_minutes_offsets req = None ->
      alarm_objects e' = alarm_objects e)
  /\ (UpdateEventRequest.recurrence_rule req = None ->
      rule_objects e' = rule_objects e).

(** Every field that the request supplies has, in [e'], the value the
    request gives it, whatever it was before. *)
Definition present_fields_overwrite {P : Platform} {Store : Type}
  {ES : EventStore Store} (self : Store) (req : UpdateEventRequest.t)
  (e' : EKEvent) : Prop :=
  (forall v, UpdateEventRequest.title req = Some v -> title e' = Some v)
  /\ (forall v, UpdateEventRequest.start_time req = Some v ->
      startDate e' = CalendarManager._to_nsdate v)
  /\ (forall v, UpdateEventRequest.end_time req = Some v ->
      endDate e' = CalendarManager._to_nsdate v)
  /\ (forall v, UpdateEventRequest.all_day req = Some v -> isAllDay e' = v)
  /\ (forall v, UpdateEventRequest.location req = Some v -> location e' = Some v)
  /\ (forall v, UpdateEventRequest.notes req = Some v -> notes e' = Some v)
  /\ (forall v, UpdateEventRequest.url req = Some v -> URL e' = URLWithString_ v)
  /\ (forall v, UpdateEventRequest.calendar_name req = Some v ->
      exists cal, CalendarManager._find_calendar self (Some v) = Return cal
                  /\ calendar e' = Some cal)
  /\ (forall v, UpdateEventRequest.alarms_minutes_offsets req = Some v ->
      alarm_objects e' = alarms_for v)
  /\ (forall v, UpdateEventRequest.recurrence_rule req = Some v ->
      rule_objects e' = [CalendarManager._to_ek_recurrence v]).

(** ** What a creation and two updates in a row are expected to leave *)

(** The request that supplies what [later] supplies and, for the rest,
    what [earlier] supplies. *)
Definition merge (earlier later : UpdateEventRequest.t) : UpdateEventRequest.t :=
  let pick {A : Type} (f : UpdateEventRequest.t -> option A) : option A :=
    match f later with
    | Some v => Some v
    | None => f earlier
    end in
  {| UpdateEventRequest.title := pick UpdateEventRequest.title;
     UpdateEventRequest.start_time := pick UpdateEventRequest.start_time;
     UpdateEventRequest.end_time := pick UpdateEventRequest.end_time;
     UpdateEventRequest.calendar_name := pick UpdateEventRequest.calendar_name;
     UpdateEventRequest.location := pick UpdateEventRequest.location;
     UpdateEventRequest.notes := pick UpdateEventRequest.notes;
     UpdateEventRequest.alarms_minutes_offsets :=
       pick UpdateEventRequest.alarms_minutes_offsets;
     UpdateEventRequest.url := pick UpdateEventRequest.url;
     UpdateEventRequest.all_day := pick UpdateEventRequest.all_day;
     UpdateEventRequest.recurrence_rule :=
       pick UpdateEventRequest.recurrence_rule |}.

(** A text field that is set only for a non-empty string. *)
Definition set_if_truthy {A : Type} (x : option string) (new : string -> A)
  (old : A) : A :=
  match x with
  | Some v => if Py.truthy v then new v else old
  | None => old
  end.

(** The object [create_event] builds from the blank object [e]. *)
Definition created {P : Platform} (req : CreateEventRequest.t)
  (cal : EKCalendar) (e : EKEvent) : EKEvent :=
  {| eventIdentifier := eventIdentifier e;
     title := Some (CreateEventRequest.title req);
     startDate := CalendarManager._to_nsdate (CreateEventRequest.start_time req);
     endDate := CalendarManager._to_nsdate (CreateEventRequest.end_time req);
     isAllDay := CreateEventRequest.all_day req;
     location := set_if_truthy (CreateEventRequest.location req) Some (location e);
     notes := set_if_truthy (CreateEventRequest.notes req) Some (notes e);
     URL := set_if_truthy (CreateEventRequest.url req) URLWithString_ (URL e);
     calendar := Some cal;
     alarm_objects :=
       (alarm_objects e
        ++ keep_or (CreateEventRequest.alarms_minutes_offsets req) alarms_for [])%list;
     rule_objects :=
       (rule_objects e
        ++ keep_or (CreateEventRequest.recurrence_rule req)
             (fun r => [CalendarManager._to_ek_recurrence r]) [])%list |}.

(** The host after [k] rounds of the run loop. *)
Fixpoint after_rounds {Store : Type} {AC : CalendarManager.AccessControl Store}
  (k : nat) (self : Store) : Store :=
  match k with
  | O => self
  | S k' => after_rounds k' (fst (CalendarManager.runUntilDate_ self))
  end.

(** The request for access that [_request_access] sends. *)
Definition request_sent {Store : Type} {AC : CalendarManager.AccessControl Store}
  (self : Store) : Store * option bool :=
  if CalendarManager.has_requestFullAccessToEventsWithCompletion_ self
  then CalendarManager.requestFullAccessToEventsWithCompletion_ self
  else CalendarManager.requestAccessToEntityType_completion_ self.

(** * Facts about the Python primitives *)

Module PyFacts.
Import Py.






Lemma or_empty_Some (s : string) : or_empty (Some s) = s.
Proof. destruct s; reflexivity. Qed.

Section SortedFacts.
Context {A : Type} (key : A -> Z).

Lemma insert_perm (x : A) (l : list A) : Permutation (insert key x l) (x :: l).
Proof.
  induction l as [|y l IH]; simpl.
  - reflexivity.
  - destruct (key x <=? key y).
    + reflexivity.
    + rewrite IH. apply perm_swap.
Qed.

Lemma sorted_perm (l : list A) : Permutation (sorted key l) l.
Proof.
  induction l as [|x l IH]; simpl.
  - reflexivity.
  - rewrite insert_perm. now constructor.
Qed.

Lemma insert_sorted (x : A) (l : list A) :
  StronglySorted (key_le key) l -> StronglySorted (key_le key) (insert key x l).
Proof.
  induction 1 as [|y l Hs IH Hy]; simpl.
  - repeat constructor.
  - destruct (key x <=? key y) eqn:E.
    + apply Z.leb_le in E. constructor.
      * now constructor.
      * constructor; [exact E |].
        eapply Forall_impl; [| exact Hy]. unfold key_le. intros; lia.
    + apply Z.leb_gt in E. constructor; [exact IH |].
      eapply Permutation_Forall; [symmetry; apply insert_perm |].
      constructor; [unfold key_le; lia | exact Hy].
Qed.

Lemma sorted_sorted (l : list A) : StronglySorted (key_le key) (sorted key l).
Proof.
  induction l as [|x l IH]; simpl.
  - constructor.
  - now apply insert_sorted.
Qed.

(** Stability: the elements of one key come out in the order they
    went in. *)
Lemma insert_stable (k : Z) (x : A) (l : list A) :
  filter (fun a => key a =? k) (insert key x l)
  = filter (fun a => key a =? k) (x :: l).
Proof.
  induction l as [|y l IH]; [reflexivity |].
  cbn [insert]. destruct (key x <=? key y) eqn:E; [reflexivity |].
  apply Z.leb_gt in E. cbn [filter] in *. rewrite IH.
  destruct (key x =? k) eqn:Ex, (key y =? k) eqn:Ey; try reflexivity.
  apply Z.eqb_eq in Ex, Ey. lia.
Qed.

Lemma sorted_stable (k : Z) (l : list A) :
  filter (fun a => key a =? k) (sorted key l)
  = filter (fun a => key a =? k) l.
Proof.
  induction l as [|x l IH]; [reflexivity |].
  cbn [sorted]. rewrite insert_stable. cbn [filter]. now rewrite IH.
Qed.

Lemma filter_sorted (p : A -> bool) (l : list A) :
  StronglySorted (key_le key) l -> StronglySorted (key_le key) (filter p l).
Proof.
  induction 1 as [|x l Hs IH Hx]; simpl.
  - constructor.
  - destruct (p x); [| exact IH].
    constructor; [exact IH |].
    apply Forall_forall. intros y Hy. apply filter_In in Hy as [Hy _].
    rewrite Forall_forall in Hx. now apply Hx.
Qed.
End SortedFacts.

End PyFacts.

(** * Facts about the monad and the edits of an object *)

Section RunFacts.
Context {S : Type}.

Lemma run_bind {A B : Type} (m : StateErr S A) (k : A -> StateErr S B)
  (s s' : S) (a : A) :
  m s = (Return a, s') -> (x <- m ;; k x) s = k a s'.
Proof. intros H. cbn. now rewrite H. Qed.

Lemma run_bind_raise {A B : Type} (m : StateErr S A) (k : A -> StateErr S B)
  (s s' : S) (e : Exception) :
  m s = (Raise e, s') -> (x <- m ;; k x) s = (Raise e, s').
Proof. intros H. cbn. now rewrite H. Qed.

Lemma if_not_None_modify {A : Type} (x : option A) (f : A -> S -> S) (s : S) :
  if_not_None x (fun v => modify (f v)) s
  = (Return tt, keep_or x (fun v => f v s) s).
Proof. now destruct x. Qed.
End RunFacts.

Section ObjectFacts.

Lemma or_nil_if_empty {A : Type} (l : list A) :
  match nil_if_empty l with Some l' => l' | None => [] end = l.
Proof. now destruct l. Qed.

Lemma remove_object_head {A : Type} (eq_dec : forall a b : A, {a = b} + {a <> b})
  (x : A) (l : list A) : remove_object eq_dec x (x :: l) = l.
Proof. simpl. destruct (eq_dec x x); [reflexivity | contradiction]. Qed.

Lemma set_alarm_objects_twice (a b : list EKAlarm) (e : EKEvent) :
  set_alarm_objects a (set_alarm_objects b e) = set_alarm_objects a e.
Proof. reflexivity. Qed.

Lemma set_rule_objects_twice (a b : list EKRecurrenceRule) (e : EKEvent) :
  set_rule_objects a (set_rule_objects b e) = set_rule_objects a e.
Proof. reflexivity. Qed.

Lemma set_alarm_objects_same (e : EKEvent) :
  set_alarm_objects (alarm_objects e) e = e.
Proof. now destruct e. Qed.

Lemma set_rule_objects_same (e : EKEvent) :
  set_rule_objects (rule_objects e) e = e.
Proof. now destruct e. Qed.

(** The loop [for alarm in alarms: removeAlarm_(alarm)] takes out of
    the collection everything it runs over. *)
Lemma remove_alarms_loop (l rest : list EKAlarm) (e : EKEvent) :
  alarm_objects e = (l ++ rest)%list ->
  for_each l (fun alarm => modify (removeAlarm_ alarm)) e
  = (Return tt, set_alarm_objects rest e).
Proof.
  revert e; induction l as [|a l IH]; intros e H.
  - cbn in *. now rewrite <- H, set_alarm_objects_same.
  - cbn [for_each]. erewrite run_bind by reflexivity.
    unfold removeAlarm_. rewrite H. cbn [app].
    rewrite remove_object_head. now rewrite IH by reflexivity.
Qed.

Lemma remove_rules_loop (l rest : list EKRecurrenceRule) (e : EKEvent) :
  rule_objects e = (l ++ rest)%list ->
  for_each l (fun rule => modify (removeRecurrenceRule_ rule)) e
  = (Return tt, set_rule_objects rest e).
Proof.
  revert e; induction l as [|a l IH]; intros e H.
  - cbn in *. now rewrite <- H, set_rule_objects_same.
  - cbn [for_each]. erewrite run_bind by reflexivity.
    unfold removeRecurrenceRule_. rewrite H. cbn [app].
    rewrite remove_object_head. now rewrite IH by reflexivity.
Qed.

Lemma add_alarms_loop (minutes : list Z) (e : EKEvent) :
  for_each minutes (fun m =>
    let alarm := alarmWithRelativeOffset_ (-60 * m) in
    modify (addAlarm_ alarm)) e
  = (Return tt,
     set_alarm_objects (alarm_objects e ++ alarms_for minutes)%list e).
Proof.
  revert e; induction minutes as [|m ms IH]; intros e.
  - cbn. now rewrite app_nil_r, set_alarm_objects_same.
  - cbn [for_each]. erewrite run_bind by reflexivity. rewrite IH.
    unfold addAlarm_. cbn [alarm_objects set_alarm_objects alarms_for map].
    now rewrite <- app_assoc.
Qed.
End ObjectFacts.

(** * The edits of [update_event] *)

Section EditFacts.
Context {P : Platform} {Store : Type} {ES : EventStore Store}.
Import CalendarManager.

Lemma replace_alarms_run (v : list Z) (e : EKEvent) :
  replace_alarms v e = (Return tt, set_alarm_objects (alarms_for v) e).
Proof.
  unfold replace_alarms.
  erewrite run_bind by reflexivity.
  unfold alarms. rewrite or_nil_if_empty.
  erewrite run_bind
    by (apply remove_alarms_loop with (rest := []); now rewrite app_nil_r).
  now rewrite add_alarms_loop.
Qed.

Lemma replace_recurrence_rule_run (v : RecurrenceRule.t) (e : EKEvent) :
  replace_recurrence_rule v e
  = (Return tt, set_rule_objects [_to_ek_recurrence v] e).
Proof.
  unfold replace_recurrence_rule.
  erewrite run_bind by reflexivity.
  unfold recurrenceRules. rewrite or_nil_if_empty.
  erewrite run_bind
    by (apply remove_rules_loop with (rest := []); now rewrite app_nil_r).
  reflexivity.
Qed.

Lemma if_not_None_run {S A : Type} (x : option A) (body : A -> StateErr S unit)
  (f : A -> S -> S) (s : S) :
  (forall v s, body v s = (Return tt, f v s)) ->
  if_not_None x body s = (Return tt, keep_or x (fun v => f v s) s).
Proof. intros H. destruct x; [apply H | reflexivity]. Qed.

Lemma assign_calendar_run (self : Store) (req : UpdateEventRequest.t)
  (cal : option EKCalendar) (e : EKEvent) :
  resolved self req = Return cal ->
  if_not_None (UpdateEventRequest.calendar_name req) (assign_calendar self) e
  = (Return tt, keep_or cal (fun c => setCalendar_ c e) e).
Proof.
  unfold resolved, assign_calendar.
  destruct (UpdateEventRequest.calendar_name req) as [name|].
  - cbn -[_find_calendar]. destruct (_find_calendar self (Some name)).
    + now intros [= <-].
    + discriminate.
  - now intros [= <-].
Qed.

Lemma assign_calendar_raise (self : Store) (req : UpdateEventRequest.t)
  (x : Exception) (e : EKEvent) :
  resolved self req = Raise x ->
  if_not_None (UpdateEventRequest.calendar_name req) (assign_calendar self) e
  = (Raise x, e).
Proof.
  unfold resolved, assign_calendar.
  destruct (UpdateEventRequest.calendar_name req) as [name|].
  - cbn -[_find_calendar]. destruct (_find_calendar self (Some name)).
    + discriminate.
    + now intros [= <-].
  - discriminate.
Qed.

Ltac split_fields :=
  repeat match goal with
         | |- context [keep_or ?o _ _] => is_var o; destruct o; cbn
         end.

(** When the calendar name resolves, the edits return and leave the
    object [edited] describes. *)
Lemma update_event_edits_return (self : Store) (req : UpdateEventRequest.t)
  (cal : option EKCalendar) (e : EKEvent) :
  resolved self req = Return cal ->
  update_event_edits req self e = (Return tt, edited req cal e).
Proof.
  intros H. unfold update_event_edits.
  do 7 (erewrite run_bind by apply if_not_None_modify).
  erewrite run_bind by (apply assign_calendar_run; exact H).
  erewrite run_bind by (apply if_not_None_run, replace_alarms_run).
  rewrite (if_not_None_run _ _ _ _ replace_recurrence_rule_run).
  f_equal. unfold edited. destruct e, req. cbn. split_fields; reflexivity.
Qed.

(** When it does not, the edits raise what the resolution raised, with
    the fields before the calendar applied and nothing else. *)
Lemma update_event_edits_raise (self : Store) (req : UpdateEventRequest.t)
  (x : Exception) (e : EKEvent) :
  resolved self req = Raise x ->
  update_event_edits req self e = (Raise x, edited (before_calendar req) None e).
Proof.
  intros H. unfold update_event_edits.
  do 7 (erewrite run_bind by apply if_not_None_modify).
  erewrite run_bind_raise by (apply assign_calendar_raise; exact H).
  f_equal. unfold edited. destruct e, req. cbn. split_fields; reflexivity.
Qed.
End EditFacts.

(** * update_event and delete_event, run *)

Section MutationFacts.
Context {P : Platform} {Store : Type} {ES : EventStore Store}.
Import CalendarManager.

Lemma edited_absent (req : UpdateEventRequest.t) (cal : option EKCalendar)
  (e : EKEvent) :
  (UpdateEventRequest.calendar_name req = None -> cal = None) ->
  absent_fields_untouched req e (edited req cal e).
Proof.
  intros Hc. unfold absent_fields_untouched, edited. cbn.
  repeat split; intros H; rewrite ?H; try reflexivity.
  now rewrite (Hc H).
Qed.

Lemma resolved_None (self : Store) (req : UpdateEventRequest.t)
  (cal : option EKCalendar) :
  resolved self req = Return cal ->
  UpdateEventRequest.calendar_name req = None -> cal = None.
Proof. unfold resolved. intros H E. rewrite E in H. now injection H. Qed.

Lemma edited_present (self : Store) (req : UpdateEventRequest.t)
  (cal : option EKCalendar) (e : EKEvent) :
  resolved self req = Return cal ->
  present_fields_overwrite self req (edited req cal e).
Proof.
  intros Hc. unfold present_fields_overwrite, edited. cbn -[_find_calendar].
  repeat split; intros v H; try (rewrite H; reflexivity).
  unfold resolved in Hc. rewrite H in Hc.
  destruct (_find_calendar self (Some v)) as [c|]; [| discriminate].
  injection Hc as <-. now exists c.
Qed.

(** The whole of [update_event] on an event that is found and a
    calendar name that resolves. *)
Lemma update_event_run (m : t Store) (event_id : string)
  (req : UpdateEventRequest.t) (ev : EKEvent) (cal : option EKCalendar) :
  eventWithIdentifier_ (store m) event_id = Some ev ->
  resolved (store m) req = Return cal ->
  let ev' := edited req cal ev in
  let reply := saveEvent_span_error_ (store m) ev' (span_for ev') in
  update_event event_id req m
  = (if success reply
     then Return (Event.from_ekevent (object_after reply))
     else Raise (CalendarError ("이벤트 수정 실패: " ++ error reply)),
     {| store := store_after reply;
        journal := (journal m ++ [SaveEvent ev' (span_for ev')])%list |}).
Proof.
  intros Hf Hc. unfold update_event.
  erewrite run_bind by (unfold lift, _find_event; now rewrite Hf).
  erewrite run_bind
    by (unfold mutating_found;
        now rewrite (update_event_edits_return _ _ _ _ Hc)).
  erewrite run_bind by reflexivity.
  cbn zeta. fold (span_for (edited req cal ev)).
  now destruct (success _).
Qed.

Lemma update_event_not_found (m : t Store) (event_id : string)
  (req : UpdateEventRequest.t) :
  eventWithIdentifier_ (store m) event_id = None ->
  update_event event_id req m = (Raise (NoSuchEventError event_id), m).
Proof.
  intros Hf. unfold update_event.
  now erewrite run_bind_raise by (unfold lift, _find_event; now rewrite Hf).
Qed.

Lemma update_event_unresolved (m : t Store) (event_id : string)
  (req : UpdateEventRequest.t) (ev : EKEvent) (x : Exception) :
  eventWithIdentifier_ (store m) event_id = Some ev ->
  resolved (store m) req = Raise x ->
  update_event event_id req m
  = (Raise x,
     {| store := left_edited (store m) (edited (before_calendar req) None ev);
        journal := journal m |}).
Proof.
  intros Hf Hc. unfold update_event.
  erewrite run_bind by (unfold lift, _find_event; now rewrite Hf).
  now erewrite run_bind_raise
    by (unfold mutating_found;
        now rewrite (update_event_edits_raise _ _ _ _ Hc)).
Qed.

Lemma delete_event_run (m : t Store) (event_id : string) (ev : EKEvent) :
  eventWithIdentifier_ (store m) event_id = Some ev ->
  let reply := removeEvent_span_error_ (store m) ev (span_for ev) in
  delete_event event_id m
  = (if success reply
     then Return (Py.str_of (title ev))
     else Raise (CalendarError ("이벤트 삭제 실패: " ++ error reply)),
     {| store := store_after reply;
        journal := (journal m ++ [RemoveEvent ev (span_for ev)])%list |}).
Proof.
  intros Hf. unfold delete_event.
  erewrite run_bind by (unfold lift, _find_event; now rewrite Hf).
  erewrite run_bind by reflexivity.
  cbn zeta. fold (span_for ev).
  now destruct (success _).
Qed.

Lemma delete_event_not_found (m : t Store) (event_id : string) :
  eventWithIdentifier_ (store m) event_id = None ->
  delete_event event_id m = (Raise (NoSuchEventError event_id), m).
Proof.
  intros Hf. unfold delete_event.
  now erewrite run_bind_raise by (unfold lift, _find_event; now rewrite Hf).
Qed.

End MutationFacts.

(** * The claims *)

Section UpdateAndDelete.
Context {P : Platform} {Store : Type} {ES : EventStore Store}.
Import CalendarManager.

Lemma span_for_cases (e : EKEvent) :
  (rule_objects e <> [] -> span_for e = EKSpanFutureEvents)
  /\ (rule_objects e = [] -> span_for e = EKSpanThisEvent).
Proof.
  unfold span_for, hasRecurrenceRules.
  destruct (rule_objects e); split; intros H; congruence.
Qed.

(** The edits never touch a field that the request leaves absent, also
    when they end in an exception. *)
Lemma update_event_edits_frame (self : Store) (req : UpdateEventRequest.t)
  (e : EKEvent) :
  absent_fields_untouched req e (snd (update_event_edits req self e)).
Proof.
  destruct (resolved self req) as [cal|x] eqn:Hc.
  - rewrite (update_event_edits_return _ _ _ _ Hc). cbn [snd].
    apply edited_absent. now apply resolved_None with (self := self).
  - rewrite (update_event_edits_raise _ _ _ _ Hc). cbn [snd].
    unfold absent_fields_untouched, edited, before_calendar. cbn.
    repeat split; intros H; rewrite ?H; reflexivity.
Qed.

(** C1.  For every update request and every event found by its
    identifier, when the calendar name of the request (if it has one)
    resolves, [update_event] hands to the store an object in which each
    field present in the request has the value the request gives it,
    whatever the field held before, and each field absent from the
    request has the value it had in the event found. *)
Theorem update_event_touches_only_supplied_fields
  (m : t Store) (event_id : string) (req : UpdateEventRequest.t)
  (ev : EKEvent) (cal : option EKCalendar) :
  eventWithIdentifier_ (store m) event_id = Some ev ->
  resolved (store m) req = Return cal ->
  exists ev' span,
    journal (snd (update_event event_id req m))
    = (journal m ++ [SaveEvent ev' span])%list
    /\ absent_fields_untouched req ev ev'
    /\ present_fields_overwrite (store m) req ev'.
Proof.
  intros Hf Hc.
  exists (edited req cal ev), (span_for (edited req cal ev)).
  rewrite (update_event_run _ _ _ _ _ Hf Hc). cbn [snd journal].
  split; [reflexivity | split].
  - apply edited_absent. now apply resolved_None with (self := store m).
  - now apply edited_present.
Qed.

(** C2, as the code has it.  The request does not tell an absent field
    from one supplied as null: both are [None], and both keep the alarms
    and the recurrence rules of the event.  A supplied list of lead
    times, empty or not, replaces the alarms wholesale: the object handed
    to the store carries one alarm per lead time, at minus sixty times
    the minutes, and none of the former; so the empty list clears them.  A
    supplied recurrence rule replaces the rules by that one rule. *)
Theorem update_event_replaces_supplied_collections
  (m : t Store) (event_id : string) (fields : UpdateEventRequest.Fields)
  (ev : EKEvent) (cal : option EKCalendar) :
  eventWithIdentifier_ (store m) event_id = Some ev ->
  resolved (store m) (UpdateEventRequest.make fields) = Return cal ->
  exists ev' span,
    journal (snd (update_event event_id (UpdateEventRequest.make fields) m))
    = (journal m ++ [SaveEvent ev' span])%list
    /\ alarm_objects ev'
       = match UpdateEventRequest.f_alarms_minutes_offsets fields with
         | UpdateEventRequest.Value minutes =>
             map (fun m => alarmWithRelativeOffset_ (-60 * m)) minutes
         | UpdateEventRequest.Null => alarm_objects ev
         | UpdateEventRequest.Absent => alarm_objects ev
         end
    /\ rule_objects ev'
       = match UpdateEventRequest.f_recurrence_rule fields with
         | UpdateEventRequest.Value rule => [_to_ek_recurrence rule]
         | UpdateEventRequest.Null => rule_objects ev
         | UpdateEventRequest.Absent => rule_objects ev
         end.
Proof.
  intros Hf Hc.
  exists (edited (UpdateEventRequest.make fields) cal ev),
         (span_for (edited (UpdateEventRequest.make fields) cal ev)).
  rewrite (update_event_run _ _ _ _ _ Hf Hc). cbn [snd journal].
  split; [reflexivity |]. unfold edited, UpdateEventRequest.make. cbn.
  split.
  - now destruct (UpdateEventRequest.f_alarms_minutes_offsets fields).
  - now destruct (UpdateEventRequest.f_recurrence_rule fields).
Qed.

(** C3.  [delete_event] passes to the store, with the event it found,
    the future-events span when that event has a recurrence rule and the
    this-event span when it has none; [update_event] passes, with the
    object it edited, the future-events span when the object has a rule
    after the edits and the this-event span when it has none. *)
Theorem span_follows_recurrence_at_commit (m : t Store) (event_id : string) :
  (forall ev,
      eventWithIdentifier_ (store m) event_id = Some ev ->
      exists span,
        journal (snd (delete_event event_id m))
        = (journal m ++ [RemoveEvent ev span])%list
        /\ (rule_objects ev <> [] -> span = EKSpanFutureEvents)
        /\ (rule_objects ev = [] -> span = EKSpanThisEvent))
  /\ (forall req ev cal,
      eventWithIdentifier_ (store m) event_id = Some ev ->
      resolved (store m) req = Return cal ->
      exists ev' span,
        journal (snd (update_event event_id req m))
        = (journal m ++ [SaveEvent ev' span])%list
        /\ rule_objects ev'
           = match UpdateEventRequest.recurrence_rule req with
             | Some rule => [_to_ek_recurrence rule]
             | None => rule_objects ev
             end
        /\ (rule_objects ev' <> [] -> span = EKSpanFutureEvents)
        /\ (rule_objects ev' = [] -> span = EKSpanThisEvent)).
Proof.
  split.
  - intros ev Hf. exists (span_for ev).
    rewrite (delete_event_run _ _ _ Hf). cbn [snd journal].
    split; [reflexivity | apply span_for_cases].
  - intros req ev cal Hf Hc.
    exists (edited req cal ev), (span_for (edited req cal ev)).
    rewrite (update_event_run _ _ _ _ _ Hf Hc). cbn [snd journal].
    split; [reflexivity | split; [reflexivity | apply span_for_cases]].
Qed.

(** C8.  [delete_event] raises [NoSuchEventError] with the identifier
    when the store has no event of that identifier, and then neither the
    store nor the journal of calls has changed.  When the event exists,
    the title is taken from the event as found, before the removal: it
    is returned when the store reports success, and when the store
    reports failure a [CalendarError] is raised whose message is the
    deletion-failed text followed by the diagnostic of the store. *)
Theorem delete_event_outcomes (m : t Store) (event_id : string) :
  (eventWithIdentifier_ (store m) event_id = None ->
   delete_event event_id m = (Raise (NoSuchEventError event_id), m))
  /\ (forall ev,
      eventWithIdentifier_ (store m) event_id = Some ev ->
      let reply := removeEvent_span_error_ (store m) ev (span_for ev) in
      (success reply = true ->
       fst (delete_event event_id m) = Return (Py.str_of (title ev)))
      /\ (success reply = false ->
          fst (delete_event event_id m)
          = Raise (CalendarError ("이벤트 삭제 실패: " ++ error reply)))
      /\ store (snd (delete_event event_id m)) = store_after reply).
Proof.
  split.
  - apply delete_event_not_found.
  - intros ev Hf reply. rewrite (delete_event_run _ _ _ Hf). fold reply.
    cbn [fst snd store].
    repeat split; intros ->; reflexivity.
Qed.

End UpdateAndDelete.

Section Reading.
Context {P : Platform} {Store : Type} {ES : EventStore Store}.
Import CalendarManager.

Lemma find_Some_iff {A : Type} (p : A -> bool) (l : list A) (x : A) :
  find p l = Some x
  <-> exists before after,
        l = (before ++ x :: after)%list /\ p x = true
        /\ forall y, In y before -> p y = false.
Proof.
  induction l as [|a l IH]; simpl.
  - split; [discriminate | intros (b & c & H & _)]. now destruct b.
  - destruct (p a) eqn:E.
    + split.
      * intros [= <-]. exists [], l. repeat split; [exact E | intros y []].
      * intros (b & c & H & Hx & Hb). destruct b as [|b0 b].
        -- now injection H as ->.
        -- injection H as <- _. rewrite (Hb a) in E by now left. discriminate.
    + rewrite IH. split.
      * intros (b & c & -> & Hx & Hb). exists (a :: b), c.
        repeat split; [exact Hx |]. intros y [<- | Hy]; [exact E | now apply Hb].
      * intros (b & c & H & Hx & Hb). destruct b as [|b0 b].
        -- injection H as -> _. congruence.
        -- injection H as _ ->. exists b, c.
           repeat split; [exact Hx |]. intros y Hy. apply Hb. now right.
Qed.

Lemma find_None_iff {A : Type} (p : A -> bool) (l : list A) :
  find p l = None <-> forall y, In y l -> p y = false.
Proof.
  induction l as [|a l IH]; simpl.
  - split; [intros _ y [] | reflexivity].
  - destruct (p a) eqn:E.
    + split; [discriminate |]. intros H. rewrite (H a) in E by now left.
      discriminate.
    + rewrite IH. split.
      * intros H y [<- | Hy]; [exact E | now apply H].
      * intros H y Hy. apply H. now right.
Qed.

Lemma find_calendar_named_Return (self : Store) (n : string) (cal : EKCalendar) :
  _find_calendar self (Some n) = Return cal
  <-> exists before after,
        calendarsForEntityType_ self = (before ++ cal :: after)%list
        /\ calendar_title cal = n
        /\ forall c, In c before -> calendar_title c <> n.
Proof.
  cbn. split.
  - intros H.
    destruct (find _ _) as [c|] eqn:E; [| discriminate]. injection H as ->.
    apply find_Some_iff in E as (b & a & Hl & Hx & Hb).
    exists b, a. repeat split; [exact Hl | now apply String.eqb_eq |].
    intros c Hc. apply String.eqb_neq. now apply Hb.
  - intros (b & a & Hl & Hx & Hb).
    assert (E : find (fun c => String.eqb (calendar_title c) n)
                     (calendarsForEntityType_ self) = Some cal).
    { apply find_Some_iff. exists b, a.
      repeat split; [exact Hl | now apply String.eqb_eq |].
      intros c Hc. apply String.eqb_neq. now apply Hb. }
    now rewrite E.
Qed.

Lemma find_calendar_named_Raise (self : Store) (n : string) :
  _find_calendar self (Some n) = Raise (NoSuchCalendarError n)
  <-> forall c, In c (calendarsForEntityType_ self) -> calendar_title c <> n.
Proof.
  cbn. split.
  - intros H. destruct (find _ _) as [c|] eqn:E; [discriminate |].
    intros c Hc. apply String.eqb_neq.
    now apply (proj1 (find_None_iff _ _) E).
  - intros H.
    assert (E : find (fun c => String.eqb (calendar_title c) n)
                     (calendarsForEntityType_ self) = None).
    { apply find_None_iff. intros c Hc. apply String.eqb_neq. now apply H. }
    now rewrite E.
Qed.

Lemma find_calendar_named_Raise_only (self : Store) (n : string) (e : Exception) :
  _find_calendar self (Some n) = Raise e -> e = NoSuchCalendarError n.
Proof. cbn. destruct (find _ _); [discriminate | now intros [= <-]]. Qed.

(** C4, as the code has it.  Without a name, [_find_calendar] returns
    the default calendar of the host, and when the host has none it
    raises the base [CalendarError] with its own message, not
    [NoSuchCalendarError].  With a name it returns the first calendar of
    the enumeration whose title is that very string, and raises
    [NoSuchCalendarError] with the name when no title is. *)
Theorem find_calendar_resolution (self : Store) (name : option string) :
  match name with
  | None =>
      match defaultCalendarForNewEvents self with
      | Some default => _find_calendar self None = Return default
      | None =>
          _find_calendar self None
          = Raise (CalendarError "기본 캘린더를 찾을 수 없습니다.")
      end
  | Some n =>
      (forall cal,
          _find_calendar self (Some n) = Return cal
          <-> exists before after,
                calendarsForEntityType_ self = (before ++ cal :: after)%list
                /\ calendar_title cal = n
                /\ forall c, In c before -> calendar_title c <> n)
      /\ (_find_calendar self (Some n) = Raise (NoSuchCalendarError n)
          <-> forall c, In c (calendarsForEntityType_ self) ->
                        calendar_title c <> n)
      /\ (forall e, _find_calendar self (Some n) = Raise e ->
                    e = NoSuchCalendarError n)
  end.
Proof.
  destruct name as [n|].
  - split; [| split].
    + intros cal. apply find_calendar_named_Return.
    + apply find_calendar_named_Raise.
    + apply find_calendar_named_Raise_only.
  - cbn. now destruct (defaultCalendarForNewEvents self).
Qed.

Lemma list_events_run (self : Store) (start end_ : Py.datetime)
  (calendar_name : option string) (calendars : option (list EKCalendar)) :
  calendars_filter self calendar_name = Return calendars ->
  list_events self start end_ calendar_name
  = Return (Py.sorted Event.start_time
              (map Event.from_ekevent
                 (found_by self
                    {| predicate_start := _to_nsdate start;
                       predicate_end := _to_nsdate end_;
                       predicate_calendars := calendars |}))).
Proof.
  intros H. unfold list_events, found_by. rewrite H. cbn.
  destruct (eventsMatchingPredicate_ self _) as [[|e l]|]; reflexivity.
Qed.

Lemma list_events_raise (self : Store) (start end_ : Py.datetime)
  (calendar_name : option string) (x : Exception) :
  calendars_filter self calendar_name = Raise x ->
  list_events self start end_ calendar_name = Raise x.
Proof. intros H. unfold list_events. now rewrite H. Qed.

Lemma calendars_filter_raise (self : Store) (calendar_name : option string)
  (x : Exception) :
  calendars_filter self calendar_name = Raise x ->
  exists name, calendar_name = Some name /\ name <> ""
               /\ x = NoSuchCalendarError name
               /\ forall c, In c (calendarsForEntityType_ self) ->
                            calendar_title c <> name.
Proof.
  unfold calendars_filter. destruct calendar_name as [name|]; [| discriminate].
  destruct name as [|a name]; [discriminate |]. cbn [Py.truthy].
  cbn [bind Monad_result].
  destruct (_find_calendar self (Some (String a name))) as [c|e] eqn:E;
    [discriminate |].
  intros [= <-]. exists (String a name).
  pose proof (find_calendar_named_Raise_only _ _ _ E) as ->.
  repeat split; [discriminate | now apply find_calendar_named_Raise].
Qed.

End Reading.

Section ListAndSearch.
Context {P : Platform} {L : Py.StrLower} {Store : Type} {ES : EventStore Store}.
Import CalendarManager.

Lemma list_events_sorted (self : Store) (start end_ : Py.datetime)
  (calendar_name : option string) (events : list Event.t) :
  list_events self start end_ calendar_name = Return events ->
  StronglySorted (Py.key_le Event.start_time) events.
Proof.
  destruct (calendars_filter self calendar_name) as [calendars|x] eqn:E.
  - rewrite (list_events_run _ _ _ _ _ E). intros [= <-].
    apply PyFacts.sorted_sorted.
  - now rewrite (list_events_raise _ _ _ _ _ E).
Qed.



Lemma list_events_lists_what_host_found (self : Store)
  (start end_ : Py.datetime) (calendar_name : option string)
  (calendars : option (list EKCalendar)) :
  calendars_filter self calendar_name = Return calendars ->
  lists_what_host_found self start end_ calendar_name calendars.
Proof.
  intros E. unfold lists_what_host_found.
  eexists. split; [apply (list_events_run _ _ _ _ _ E) |].
  split; [apply PyFacts.sorted_perm |].
  split; [apply PyFacts.sorted_sorted |].
  split; [intros k; apply PyFacts.sorted_stable |].
  split.
  - intros H. apply Permutation_nil. rewrite <- H.
    apply PyFacts.sorted_perm.
  - now intros ->.
Qed.

(** C6, as the code has it.  When the calendar name is absent or empty,
    [list_events] asks the host about every calendar; when it is the
    title of a calendar, about the first calendar of the enumeration
    with that title, and no other.  In both cases it returns, and
    returns the events the host found for the window, converted, in
    ascending order of start time, events of equal start time in the
    order the host gave them; the result is the empty list exactly when
    the host found nothing.  A non-empty name that is the title of no
    calendar makes [list_events] raise [NoSuchCalendarError] with that
    name, whatever the window and the events. *)
Theorem list_events_sorted_stable (self : Store) (start end_ : Py.datetime)
  (calendar_name : option string) :
  (calendar_name = None \/ calendar_name = Some "" ->
   lists_what_host_found self start end_ calendar_name None)
  /\ (forall name before cal after,
        calendar_name = Some name ->
        name <> "" ->
        calendarsForEntityType_ self = (before ++ cal :: after)%list ->
        calendar_title cal = name ->
        (forall c, In c before -> calendar_title c <> name) ->
        lists_what_host_found self start end_ calendar_name (Some [cal]))
  /\ (forall name,
        calendar_name = Some name ->
        name <> "" ->
        (forall c, In c (calendarsForEntityType_ self) ->
                   calendar_title c <> name) ->
        list_events self start end_ calendar_name
        = Raise (NoSuchCalendarError name)).
Proof.
  split; [| split].
  - intros [-> | ->]; now apply list_events_lists_what_host_found.
  - intros name before cal after -> Hn Hl Ht Hb.
    apply list_events_lists_what_host_found.
    unfold calendars_filter. destruct name as [|a name]; [contradiction |].
    cbn [Py.truthy].
    assert (E : _find_calendar self (Some (String a name)) = Return cal)
      by (apply find_calendar_named_Return; now exists before, after).
    now rewrite E.
  - intros name -> Hn Hno. apply list_events_raise.
    unfold calendars_filter. destruct name as [|a name]; [contradiction |].
    cbn [Py.truthy].
    now rewrite (proj2 (find_calendar_named_Raise self (String a name)) Hno).
Qed.

(** C9.  Whatever [search_events] returns is in ascending order of
    start time: it is the listing of [list_events], which is in that
    order, with some events left out and the others in place. *)
Theorem search_events_sorted (self : Store) (now : Py.datetime)
  (keyword : string) (calendar_name : option string)
  (days_back days_forward : Z) (found : list Event.t) :
  search_events self now keyword calendar_name days_back days_forward
  = Return found ->
  StronglySorted (Py.key_le Event.start_time) found
  /\ exists events,
       list_events self (now - Py.timedelta_days days_back)
         (now + Py.timedelta_days days_forward) calendar_name = Return events
       /\ StronglySorted (Py.key_le Event.start_time) events
       /\ found = filter (matches (Py.lower keyword)) events.
Proof.
  unfold search_events.
  destruct (list_events self _ _ calendar_name) as [events|x] eqn:E;
    cbn [bind Monad_result]; [| discriminate].
  intros [= <-]. pose proof (list_events_sorted _ _ _ _ _ E) as Hs.
  split; [now apply PyFacts.filter_sorted |].
  exists events. now repeat split.
Qed.

End ListAndSearch.

Section EmptyCalendarName.
Context {P : Platform} {L : Py.StrLower} {Store : Type} {ES : EventStore Store}.
Import CalendarManager.

Lemma run_bind_fst {S A B : Type} (c : StateErr S A) (k : A -> StateErr S B)
  (s : S) (a : A) :
  fst (c s) = Return a -> (x <- c ;; k x) s = k a (snd (c s)).
Proof. cbn. destruct (c s) as [r s']. cbn. now intros ->. Qed.

Lemma if_truthy_modify_returns {S : Type} (x : option string)
  (f : string -> S -> S) (s : S) :
  fst (if_truthy x (fun v => modify (f v)) s) = Return tt.
Proof. now destruct x as [[|a v]|]. Qed.

(** [create_event] resolves the calendar name as the request has it,
    after edits that cannot raise. *)
Lemma create_event_edits_raise (self : Store) (req : CreateEventRequest.t)
  (e : EKEvent) (x : Exception) :
  _find_calendar self (CreateEventRequest.calendar_name req) = Raise x ->
  fst (create_event_edits req self e) = Raise x.
Proof.
  intros H. unfold create_event_edits.
  do 4 (erewrite run_bind by reflexivity).
  do 3 (rewrite run_bind_fst with (a := tt) by apply if_truthy_modify_returns).
  rewrite run_bind_fst with (a := tt).
  2:{ destruct (CreateEventRequest.alarms_minutes_offsets req) as [[|m ms]|];
      [reflexivity | now rewrite add_alarms_loop | reflexivity]. }
  rewrite run_bind_fst with (a := tt)
    by now destruct (CreateEventRequest.recurrence_rule req).
  erewrite run_bind_raise; [reflexivity |].
  unfold lift. now rewrite H.
Qed.

Lemma create_event_unresolved (m : t Store) (req : CreateEventRequest.t)
  (x : Exception) :
  _find_calendar (store m) (CreateEventRequest.calendar_name req) = Raise x ->
  create_event req m = (Raise x, m).
Proof.
  intros H. unfold create_event.
  erewrite run_bind by reflexivity.
  erewrite run_bind_raise; [reflexivity |].
  unfold mutating.
  pose proof (create_event_edits_raise (store m) req
                (eventWithEventStore_ (store m)) x H) as Hr.
  destruct (create_event_edits req (store m) _) as [r e']. cbn in Hr.
  now rewrite Hr.
Qed.

(** C10.  The empty string as calendar name is no filter at all for
    [list_events] and [search_events]: the host is asked about every
    calendar, the outcome is the outcome without a name, and it is never
    an exception.  [update_event] and [create_event] test the name
    against [None] only: given the empty string they look for a calendar
    of that title, and raise [NoSuchCalendarError] with the empty string
    when there is none, without a call to the store: the journal is as
    it was, and after [create_event] so is the store. *)
Theorem empty_calendar_name_is_no_filter (self : Store)
  (start end_ now : Py.datetime) (keyword : string)
  (days_back days_forward : Z) :
  calendars_filter self (Some "") = Return None
  /\ list_events self start end_ (Some "") = list_events self start end_ None
  /\ search_events self now keyword (Some "") days_back days_forward
     = search_events self now keyword None days_back days_forward
  /\ (exists events, list_events self start end_ (Some "") = Return events)
  /\ (forall (m : t Store) event_id req ev,
         eventWithIdentifier_ (store m) event_id = Some ev ->
         UpdateEventRequest.calendar_name req = Some "" ->
         (forall c, In c (calendarsForEntityType_ (store m)) ->
                    calendar_title c <> "") ->
         fst (update_event event_id req m) = Raise (NoSuchCalendarError "")
         /\ journal (snd (update_event event_id req m)) = journal m)
  /\ (forall (m : t Store) req,
         CreateEventRequest.calendar_name req = Some "" ->
         (forall c, In c (calendarsForEntityType_ (store m)) ->
                    calendar_title c <> "") ->
         create_event req m = (Raise (NoSuchCalendarError ""), m)).
Proof.
  split; [reflexivity |]. split; [reflexivity |]. split; [reflexivity |].
  split; [| split].
  - eexists. now apply list_events_run.
  - intros m event_id req ev Hf Hn Hc.
    rewrite (update_event_unresolved m event_id req ev (NoSuchCalendarError ""));
      [now split | exact Hf |].
    unfold resolved. rewrite Hn.
    now rewrite (proj2 (find_calendar_named_Raise (store m) "") Hc).
  - intros m req Hn Hc. apply create_event_unresolved. rewrite Hn.
    now apply find_calendar_named_Raise.
Qed.

End EmptyCalendarName.

Section Serialization.
Import Py.

Lemma append_assoc' (a b c : string) : (a ++ b) ++ c = a ++ (b ++ c).
Proof. induction a as [|x a IH]; simpl; [reflexivity | now rewrite IH]. Qed.

Lemma append_empty_r (a : string) : a ++ "" = a.
Proof. induction a as [|x a IH]; simpl; [reflexivity | now rewrite IH]. Qed.

(** C7, as the code has it.  The serialization of an event is its parts
    joined by space, bar, space: first the title with the start and the
    end in parentheses, then the calendar name in brackets when it is
    not empty, then an at sign and the location when there is one and it
    is not empty, then the identifier.  The start and the end are
    formatted as dates alone when the event is all-day, and otherwise as
    that date followed by a space, the hour, a colon and the minute. *)
Theorem event_str_format (e : Event.t) :
  let fmt := if Event.all_day e then "%Y-%m-%d" else "%Y-%m-%d %H:%M" in
  let calendar_part :=
    if truthy (Event.calendar_name e)
    then " | [" ++ Event.calendar_name e ++ "]" else "" in
  let location_part :=
    match Event.location e with
    | Some l => if truthy l then " | @ " ++ l else ""
    | None => ""
    end in
  Event.__str__ e
  = Event.title e ++ " (" ++ strftime (Event.start_time e) fmt ++ " ~ "
    ++ strftime (Event.end_time e) fmt ++ ")"
    ++ calendar_part ++ location_part ++ " | ID: " ++ Event.identifier e
  /\ (forall dt,
       strftime dt "%Y-%m-%d"
       = zfill 4 (year dt) ++ "-" ++ zfill 2 (month dt) ++ "-"
         ++ zfill 2 (day dt))
  /\ (forall dt,
       strftime dt "%Y-%m-%d %H:%M"
       = strftime dt "%Y-%m-%d" ++ " " ++ zfill 2 (hour dt) ++ ":"
         ++ zfill 2 (minute dt)).
Proof.
  intros fmt calendar_part location_part.
  split; [| split].
  - unfold Event.__str__. fold fmt.
    subst calendar_part location_part.
    destruct (truthy (Event.calendar_name e));
      destruct (Event.location e) as [l|]; try destruct (truthy l);
      cbn [append Py.append join app];
      rewrite ?append_assoc'; cbn [append]; reflexivity.
  - intros dt.
    cbv [strftime strftime_from directive Ascii.eqb Bool.eqb andb].
    cbn [append]. now rewrite append_empty_r.
  - intros dt.
    cbv [strftime strftime_from directive Ascii.eqb Bool.eqb andb].
    repeat (rewrite append_assoc'; cbn [append]).
    now rewrite append_empty_r.
Qed.

End Serialization.

(** * The claims on concrete inputs *)

Section Runs.
Import CalendarManager.
#[local] Existing Instance Mock.ascii_fold.

(** The methods on the sample store. *)

Example strftime_dates :
  Py.strftime (Mock.feb12 10 0) "%Y-%m-%d %H:%M" = "2026-02-12 10:00"
  /\ Py.strftime (Mock.at_day 0 23 59) "%Y-%m-%d %H:%M" = "0001-01-01 23:59"
  /\ Py.strftime (Mock.at_day 730178 0 0) "%Y-%m-%d" = "2000-02-29"
  /\ Py.strftime (Mock.at_day 738945 1 5) "%Y-%m-%d %H:%M" = "2024-03-01 01:05"
  /\ Py.strftime (Mock.at_day 3652058 0 0) "%Y-%m-%d" = "9999-12-31".
Proof. repeat split; vm_compute; reflexivity. Qed.

Example find_calendar_sample :
  _find_calendar Mock.sample (Some "Work") = Return Mock.work
  /\ _find_calendar Mock.sample (Some "work") = Raise (NoSuchCalendarError "work")
  /\ _find_calendar Mock.sample (Some "Nonexistent")
     = Raise (NoSuchCalendarError "Nonexistent")
  /\ _find_calendar Mock.sample None = Return Mock.home.
Proof. repeat split. Qed.

Example list_events_sample :
  list_events Mock.sample (Mock.feb12 0 0) (Mock.feb12 23 0) None
  = Return [Event.from_ekevent Mock.offsite; Event.from_ekevent Mock.standup;
            Event.from_ekevent Mock.lunch]
  /\ list_events Mock.sample (Mock.feb12 0 0) (Mock.feb12 23 0) (Some "Work")
     = Return [Event.from_ekevent Mock.standup]
  /\ list_events Mock.sample (Mock.at_day 0 0 0) (Mock.at_day 1 0 0) None
     = Return [].
Proof. repeat split; vm_compute; reflexivity. Qed.

Example search_events_sample :
  search_events Mock.sample (Mock.feb12 0 0) "foo" None 30 90
  = Return [Event.from_ekevent Mock.lunch]
  /\ search_events Mock.sample (Mock.feb12 0 0) "room" None 30 90
     = Return [Event.from_ekevent Mock.standup]
  /\ search_events Mock.sample (Mock.feb12 0 0) "" None 30 90
     = list_events Mock.sample (Mock.feb12 0 0 - Py.timedelta_days 30)
         (Mock.feb12 0 0 + Py.timedelta_days 90) None.
Proof. repeat split; vm_compute; reflexivity. Qed.

Example str_sample :
  map Event.__str__
    [Event.from_ekevent Mock.offsite; Event.from_ekevent Mock.lunch]
  = ["Offsite (2026-02-12 ~ 2026-02-13) | ID: E3";
     "Lunch (2026-02-12 10:00 ~ 2026-02-12 11:00) | [Home] | ID: E2"].
Proof. vm_compute. reflexivity. Qed.

Example update_event_sample :
  fst (update_event "E2" Mock.retitle (Mock.manager Mock.sample))
  = Return
      {| Event.identifier := "E2"; Event.title := "Daily standup";
         Event.start_time := Mock.feb12 10 0; Event.end_time := Mock.feb12 11 0;
         Event.calendar_name := "Work"; Event.location := None;
         Event.notes := Some "Bring the FOO report"; Event.url := None;
         Event.all_day := false; Event.is_recurring := false |}
  /\ journal (snd (update_event "E2" Mock.retitle (Mock.manager Mock.sample)))
     = [SaveEvent
          {| eventIdentifier := "E2"; title := Some "Daily standup";
             startDate := timestamp (Mock.feb12 10 0);
             endDate := timestamp (Mock.feb12 11 0);
             isAllDay := false; location := None;
             notes := Some "Bring the FOO report"; URL := None;
             calendar := Some Mock.work;
             alarm_objects := [alarmWithRelativeOffset_ (-300);
                               alarmWithRelativeOffset_ (-1800)];
             rule_objects := [] |}
          EKSpanThisEvent].
Proof. split; vm_compute; reflexivity. Qed.

Lemma update_event_touches_only_supplied_fields_witness :
  exists ev' span,
    journal (snd (update_event "E2" Mock.retitle (Mock.manager Mock.sample)))
    = [SaveEvent ev' span]
    /\ absent_fields_untouched Mock.retitle Mock.lunch ev'
    /\ present_fields_overwrite Mock.sample Mock.retitle ev'.
Proof.
  exact (update_event_touches_only_supplied_fields
           (Mock.manager Mock.sample) "E2" Mock.retitle Mock.lunch
           (Some Mock.work) eq_refl eq_refl).
Defined.

Lemma update_event_replaces_supplied_collections_witness :
  exists ev' span,
    journal (snd (update_event "E1" (UpdateEventRequest.make Mock.no_alarms)
                    (Mock.manager Mock.sample)))
    = [SaveEvent ev' span]
    /\ alarm_objects ev' = []
    /\ rule_objects ev' = [Mock.every_week].
Proof.
  exact (update_event_replaces_supplied_collections
           (Mock.manager Mock.sample) "E1" Mock.no_alarms Mock.standup None
           eq_refl eq_refl).
Defined.

(** C2 as stated fails: with alarms and recurrence rule supplied as
    null, the object handed to the store is the event as it was, its
    alarm and its rule still there. *)
Lemma update_event_null_clears_nothing :
  UpdateEventRequest.f_alarms_minutes_offsets Mock.nulls = UpdateEventRequest.Null
  /\ UpdateEventRequest.f_recurrence_rule Mock.nulls = UpdateEventRequest.Null
  /\ update_event "E1" (UpdateEventRequest.make Mock.nulls)
       (Mock.manager Mock.sample)
     = update_event "E1" (UpdateEventRequest.make Mock.nothing)
         (Mock.manager Mock.sample)
  /\ journal (snd (update_event "E1" (UpdateEventRequest.make Mock.nulls)
                     (Mock.manager Mock.sample)))
     = [SaveEvent Mock.standup EKSpanFutureEvents]
  /\ alarm_objects Mock.standup = [alarmWithRelativeOffset_ (-900)]
  /\ rule_objects Mock.standup = [Mock.every_week].
Proof. repeat split. Qed.

Lemma span_follows_recurrence_at_commit_witness :
  journal (snd (delete_event "E1" (Mock.manager Mock.sample)))
  = [RemoveEvent Mock.standup EKSpanFutureEvents]
  /\ journal (snd (delete_event "E2" (Mock.manager Mock.sample)))
     = [RemoveEvent Mock.lunch EKSpanThisEvent]
  /\ exists ev',
       journal (snd (update_event "E2" Mock.retitle (Mock.manager Mock.sample)))
       = [SaveEvent ev' EKSpanThisEvent].
Proof.
  destruct (span_follows_recurrence_at_commit (Mock.manager Mock.sample) "E1")
    as [Hd1 _].
  destruct (span_follows_recurrence_at_commit (Mock.manager Mock.sample) "E2")
    as [Hd2 Hu].
  destruct (Hd1 Mock.standup eq_refl) as (s1 & Hj1 & Hf1 & _).
  destruct (Hd2 Mock.lunch eq_refl) as (s2 & Hj2 & _ & Ht2).
  destruct (Hu Mock.retitle Mock.lunch (Some Mock.work) eq_refl eq_refl)
    as (ev' & s3 & Hj3 & Hr & _ & Ht3).
  rewrite (Hf1 ltac:(discriminate)) in Hj1.
  rewrite (Ht2 eq_refl) in Hj2.
  rewrite (Ht3 Hr) in Hj3.
  split; [exact Hj1 | split; [exact Hj2 | exists ev'; exact Hj3]].
Defined.

(** C4 as stated fails: without a default calendar the exception is the
    base [CalendarError], which is no [NoSuchCalendarError]. *)
Lemma no_default_calendar_raises_CalendarError :
  _find_calendar Mock.no_default None
  = Raise (CalendarError "기본 캘린더를 찾을 수 없습니다.")
  /\ forall name,
       _find_calendar Mock.no_default None <> Raise (NoSuchCalendarError name).
Proof. split; [reflexivity | intros name; discriminate]. Qed.

(** C6 as stated fails: on a store without events, an empty window and
    a name that is the title of no calendar, [list_events] raises. *)
Lemma list_events_unknown_calendar_raises :
  Mock.events Mock.no_default = []
  /\ list_events Mock.no_default (Mock.feb12 23 0) (Mock.feb12 0 0)
       (Some "Nonexistent")
     = Raise (NoSuchCalendarError "Nonexistent").
Proof. split; reflexivity. Qed.

(** C7 as stated fails: the parts are separated by bars. *)
Lemma event_str_is_not_the_flat_line :
  Event.__str__ (Event.from_ekevent Mock.standup)
  = "Standup (2026-02-12 10:00 ~ 2026-02-12 10:30) | [Work] | @ Room 4 | ID: E1"
  /\ spec_flat_line (Event.from_ekevent Mock.standup)
     = "Standup (2026-02-12 10:00 ~ 2026-02-12 10:30) [Work] @ Room 4 | ID: E1"
  /\ Event.__str__ (Event.from_ekevent Mock.standup)
     <> spec_flat_line (Event.from_ekevent Mock.standup).
Proof.
  assert (H1 : Event.__str__ (Event.from_ekevent Mock.standup)
    = "Standup (2026-02-12 10:00 ~ 2026-02-12 10:30) | [Work] | @ Room 4 | ID: E1")
    by (vm_compute; reflexivity).
  assert (H2 : spec_flat_line (Event.from_ekevent Mock.standup)
    = "Standup (2026-02-12 10:00 ~ 2026-02-12 10:30) [Work] @ Room 4 | ID: E1")
    by (vm_compute; reflexivity).
  split; [exact H1 | split; [exact H2 |]].
  rewrite H1, H2. discriminate.
Qed.

Lemma list_events_sorted_stable_witness :
  lists_what_host_found Mock.sample (Mock.feb12 0 0) (Mock.feb12 23 0)
    (Some "") None
  /\ lists_what_host_found Mock.sample (Mock.feb12 0 0) (Mock.feb12 23 0)
       (Some "Work") (Some [Mock.work])
  /\ list_events Mock.sample (Mock.feb12 0 0) (Mock.feb12 23 0) (Some "Nope")
     = Raise (NoSuchCalendarError "Nope").
Proof.
  split; [| split].
  - apply (list_events_sorted_stable Mock.sample (Mock.feb12 0 0)
             (Mock.feb12 23 0) (Some "")).
    right. reflexivity.
  - apply (proj1 (proj2 (list_events_sorted_stable Mock.sample (Mock.feb12 0 0)
                           (Mock.feb12 23 0) (Some "Work")))
             "Work" [Mock.home] Mock.work [Mock.work_again]).
    + reflexivity.
    + discriminate.
    + reflexivity.
    + reflexivity.
    + intros c [<- | []]. discriminate.
  - apply (proj2 (proj2 (list_events_sorted_stable Mock.sample (Mock.feb12 0 0)
                           (Mock.feb12 23 0) (Some "Nope")))).
    + reflexivity.
    + discriminate.
    + intros c [<- | [<- | [<- | []]]]; discriminate.
Defined.


Lemma delete_event_outcomes_witness :
  delete_event "E9" (Mock.manager Mock.sample)
  = (Raise (NoSuchEventError "E9"), Mock.manager Mock.sample)
  /\ fst (delete_event "E1" (Mock.manager Mock.sample)) = Return "Standup"
  /\ fst (delete_event "E1" (Mock.manager Mock.read_only))
     = Raise (CalendarError "이벤트 삭제 실패: store is read-only").
Proof.
  destruct (delete_event_outcomes (Mock.manager Mock.sample) "E9") as [H9 _].
  destruct (delete_event_outcomes (Mock.manager Mock.sample) "E1") as [_ H1].
  destruct (delete_event_outcomes (Mock.manager Mock.read_only) "E1") as [_ H1'].
  destruct (H1 Mock.standup eq_refl) as (Hs & _ & _).
  destruct (H1' Mock.standup eq_refl) as (_ & Hf & _).
  split; [exact (H9 eq_refl) | split; [exact (Hs eq_refl) | exact (Hf eq_refl)]].
Defined.

Lemma search_events_sorted_witness :
  StronglySorted (Py.key_le Event.start_time)
    [Event.from_ekevent Mock.offsite; Event.from_ekevent Mock.standup].
Proof.
  refine (proj1 (search_events_sorted Mock.sample (Mock.feb12 0 0) "S" None 1 1
                   [Event.from_ekevent Mock.offsite;
                    Event.from_ekevent Mock.standup] _)).
  vm_compute. reflexivity.
Defined.

Lemma empty_calendar_name_is_no_filter_witness :
  (fst (update_event "E1" Mock.to_unnamed (Mock.manager Mock.sample))
   = Raise (NoSuchCalendarError "")
   /\ journal (snd (update_event "E1" Mock.to_unnamed
                     (Mock.manager Mock.sample)))
      = journal (Mock.manager Mock.sample))
  /\ create_event Mock.new_in_unnamed (Mock.manager Mock.sample)
     = (Raise (NoSuchCalendarError ""), Mock.manager Mock.sample).
Proof.
  destruct (empty_calendar_name_is_no_filter Mock.sample 0 0 0 "" 0 0)
    as (_ & _ & _ & _ & Hu & Hc).
  assert (Hn : forall c, In c (calendarsForEntityType_
                                 (store (Mock.manager Mock.sample))) ->
                         calendar_title c <> "").
  { intros c [<- | [<- | [<- | []]]]; discriminate. }
  split.
  - exact (Hu (Mock.manager Mock.sample) "E1" Mock.to_unnamed Mock.standup
              eq_refl eq_refl Hn).
  - exact (Hc (Mock.manager Mock.sample) Mock.new_in_unnamed eq_refl Hn).
Defined.

End Runs.

(** * Beyond the claims: the rest of the manager *)

Section StringOrder.

Lemma ascii_compare_refl (a : ascii) : Ascii.compare a a = Eq.
Proof. unfold Ascii.compare. apply N.compare_refl. Qed.

Lemma string_compare_trans_le (s1 s2 s3 : string) :
  String.compare s1 s2 <> Gt -> String.compare s2 s3 <> Gt ->
  String.compare s1 s3 <> Gt.
Proof.
  revert s2 s3; induction s1 as [|a s1 IH]; intros [|b s2] [|c s3];
    cbn; try congruence.
  unfold Ascii.compare.
  destruct (N.compare_spec (N_of_ascii a) (N_of_ascii b)) as [Eab|Lab|Gab];
    destruct (N.compare_spec (N_of_ascii b) (N_of_ascii c)) as [Ebc|Lbc|Gbc];
    destruct (N.compare_spec (N_of_ascii a) (N_of_ascii c)) as [Eac|Lac|Gac];
    try congruence; try lia.
  intros H1 H2. now apply IH with (s2 := s2).
Qed.

Lemma leb_le (s1 s2 : string) : String.leb s1 s2 = true <-> String.compare s1 s2 <> Gt.
Proof. unfold String.leb. destruct (String.compare s1 s2); split; congruence. Qed.

Lemma leb_trans (s1 s2 s3 : string) :
  String.leb s1 s2 = true -> String.leb s2 s3 = true -> String.leb s1 s3 = true.
Proof. rewrite !leb_le. apply string_compare_trans_le. Qed.

Lemma insert_str_perm (x : string) (l : list string) :
  Permutation (Py.insert_str x l) (x :: l).
Proof.
  induction l as [|y l IH]; simpl.
  - reflexivity.
  - destruct (String.leb x y).
    + reflexivity.
    + rewrite IH. apply perm_swap.
Qed.

Lemma sorted_str_perm (l : list string) : Permutation (Py.sorted_str l) l.
Proof.
  induction l as [|x l IH]; simpl.
  - reflexivity.
  - rewrite insert_str_perm. now constructor.
Qed.

Lemma insert_str_sorted (x : string) (l : list string) :
  StronglySorted (fun a b => String.leb a b = true) l ->
  StronglySorted (fun a b => String.leb a b = true) (Py.insert_str x l).
Proof.
  induction 1 as [|y l Hs IH Hy]; simpl.
  - repeat constructor.
  - destruct (String.leb x y) eqn:E.
    + constructor.
      * now constructor.
      * constructor; [exact E |].
        eapply Forall_impl; [| exact Hy]. intros z Hz. now apply leb_trans with y.
    + constructor; [exact IH |].
      eapply Permutation_Forall; [symmetry; apply insert_str_perm |].
      constructor; [| exact Hy].
      destruct (String.leb_total x y) as [H | H]; congruence.
Qed.

Lemma sorted_str_sorted (l : list string) :
  StronglySorted (fun a b => String.leb a b = true) (Py.sorted_str l).
Proof.
  induction l as [|x l IH]; simpl.
  - constructor.
  - now apply insert_str_sorted.
Qed.

End StringOrder.

Section Calendars.
Context {P : Platform} {Store : Type} {ES : EventStore Store}.
Import CalendarManager.

(** X1.  [list_calendars] returns the titles of the calendars of the
    host, every title as many times as there are calendars of that
    title, in ascending order of the strings. *)
Theorem list_calendars_sorted_titles (self : Store) :
  Permutation (list_calendars self)
    (map calendar_title (calendarsForEntityType_ self))
  /\ StronglySorted (fun a b => String.leb a b = true) (list_calendars self)
  /\ List.length (list_calendars self)
     = List.length (calendarsForEntityType_ self).
Proof.
  unfold list_calendars. split; [apply sorted_str_perm |].
  split; [apply sorted_str_sorted |].
  rewrite (Permutation_length (sorted_str_perm _)). apply length_map.
Qed.

(** X2.  The names [list_calendars] returns are the names
    [_find_calendar] resolves: a name of the list resolves to a calendar
    of that title, and any other name raises [NoSuchCalendarError]. *)
Theorem listed_calendars_resolve (self : Store) (name : string) :
  (In name (list_calendars self)
   <-> exists cal, _find_calendar self (Some name) = Return cal
                   /\ calendar_title cal = name)
  /\ (~ In name (list_calendars self)
      <-> _find_calendar self (Some name) = Raise (NoSuchCalendarError name)).
Proof.
  assert (Hin : In name (list_calendars self)
                <-> exists c, In c (calendarsForEntityType_ self)
                              /\ calendar_title c = name).
  { unfold list_calendars. split.
    - intros H. apply (Permutation_in _ (sorted_str_perm _)) in H.
      apply in_map_iff in H as (c & Hc & Hi). now exists c.
    - intros (c & Hi & Hc).
      apply (Permutation_in _ (Permutation_sym (sorted_str_perm _))).
      apply in_map_iff. now exists c. }
  split.
  - rewrite Hin. split.
    + intros (c & Hi & Hc).
      destruct (_find_calendar self (Some name)) as [cal|e] eqn:E.
      * exists cal. split; [reflexivity |].
        now destruct (proj1 (find_calendar_named_Return _ _ _) E)
          as (_ & _ & _ & Ht & _).
      * pose proof (find_calendar_named_Raise_only _ _ _ E) as ->.
        pose proof (proj1 (find_calendar_named_Raise _ _) E) as E'.
        now destruct (E' c Hi).
    + intros (cal & E & Ht).
      destruct (proj1 (find_calendar_named_Return _ _ _) E)
        as (b & a & Hl & _ & _).
      exists cal. split; [| exact Ht]. rewrite Hl. apply in_elt.
  - rewrite Hin, find_calendar_named_Raise. split.
    + intros H c Hi Hc. apply H. now exists c.
    + intros H (c & Hi & Hc). now apply (H c).
Qed.

End Calendars.

Section Creation.
Context {P : Platform} {Store : Type} {ES : EventStore Store}.
Import CalendarManager.

Lemma if_truthy_modify {S : Type} (x : option string) (f : string -> S -> S)
  (s : S) :
  if_truthy x (fun v => modify (f v)) s
  = (Return tt, set_if_truthy x (fun v => f v s) s).
Proof. now destruct x as [[|a v]|]. Qed.

Lemma create_alarms_run (x : option (list Z)) (s : EKEvent) :
  match x with
  | Some (m :: ms) =>
      for_each (m :: ms) (fun minutes =>
        let alarm := alarmWithRelativeOffset_ (-60 * minutes) in
        modify (addAlarm_ alarm))
  | _ => ret tt
  end s
  = (Return tt,
     set_alarm_objects (alarm_objects s ++ keep_or x alarms_for [])%list s).
Proof.
  destruct x as [[|m ms]|]; cbn [keep_or alarms_for map].
  - cbn. now rewrite app_nil_r, set_alarm_objects_same.
  - now rewrite add_alarms_loop.
  - cbn. now rewrite app_nil_r, set_alarm_objects_same.
Qed.

Lemma create_event_edits_return (self : Store) (req : CreateEventRequest.t)
  (cal : EKCalendar) (e : EKEvent) :
  _find_calendar self (CreateEventRequest.calendar_name req) = Return cal ->
  create_event_edits req self e = (Return tt, created req cal e).
Proof.
  intros H. unfold create_event_edits.
  do 4 (erewrite run_bind by reflexivity).
  do 3 (erewrite run_bind by apply if_truthy_modify).
  erewrite run_bind by apply create_alarms_run.
  erewrite run_bind by apply if_not_None_modify.
  erewrite run_bind by (unfold lift; now rewrite H).
  unfold modify. f_equal. unfold created.
  destruct e, req. cbn.
  repeat match goal with
         | |- context [set_if_truthy ?o _ _] =>
             is_var o; destruct o as [[|? ?]|]; cbn
         | |- context [keep_or ?o _ _] => is_var o; destruct o; cbn
         end;
  rewrite ?app_nil_r; reflexivity.
Qed.

Lemma create_event_run (m : t Store) (req : CreateEventRequest.t)
  (cal : EKCalendar) :
  _find_calendar (store m) (CreateEventRequest.calendar_name req) = Return cal ->
  let ev' := created req cal (eventWithEventStore_ (store m)) in
  let reply := saveEvent_span_error_ (store m) ev' EKSpanThisEvent in
  create_event req m
  = (if success reply
     then Return (Event.from_ekevent (object_after reply))
     else Raise (CalendarError ("이벤트 생성 실패: " ++ error reply)),
     {| store := store_after reply;
        journal := (journal m ++ [SaveEvent ev' EKSpanThisEvent])%list |}).
Proof.
  intros Hc. unfold create_event.
  erewrite run_bind by reflexivity.
  erewrite run_bind
    by (unfold mutating; now rewrite (create_event_edits_return _ _ _ _ Hc)).
  erewrite run_bind by reflexivity.
  cbn zeta. now destruct (success _).
Qed.

(** X3.  When the calendar of the request resolves, [create_event]
    makes one call to the store, a save with the this-event span, also
    when the new event has a recurrence rule.  The object saved has the
    title, start, end and all-day flag of the request and the resolved
    calendar; a location, notes or URL is set only when the request has
    a non-empty string for it; to the alarms of the blank object one
    alarm per lead time is added, at minus sixty times the minutes, and
    to its rules the rule of the request when there is one. *)
Theorem create_event_saves_this_event (m : t Store) (req : CreateEventRequest.t)
  (cal : EKCalendar) :
  _find_calendar (store m) (CreateEventRequest.calendar_name req) = Return cal ->
  let blank := eventWithEventStore_ (store m) in
  exists ev',
    journal (snd (create_event req m))
    = (journal m ++ [SaveEvent ev' EKSpanThisEvent])%list
    /\ title ev' = Some (CreateEventRequest.title req)
    /\ startDate ev' = _to_nsdate (CreateEventRequest.start_time req)
    /\ endDate ev' = _to_nsdate (CreateEventRequest.end_time req)
    /\ isAllDay ev' = CreateEventRequest.all_day req
    /\ calendar ev' = Some cal
    /\ location ev'
       = match CreateEventRequest.location req with
         | Some v => if Py.truthy v then Some v else location blank
         | None => location blank
         end
    /\ notes ev'
       = match CreateEventRequest.notes req with
         | Some v => if Py.truthy v then Some v else notes blank
         | None => notes blank
         end
    /\ URL ev'
       = match CreateEventRequest.url req with
         | Some v => if Py.truthy v then URLWithString_ v else URL blank
         | None => URL blank
         end
    /\ alarm_objects ev'
       = (alarm_objects blank
          ++ match CreateEventRequest.alarms_minutes_offsets req with
             | Some minutes =>
                 map (fun m => alarmWithRelativeOffset_ (-60 * m)) minutes
             | None => []
             end)%list
    /\ rule_objects ev'
       = (rule_objects blank
          ++ match CreateEventRequest.recurrence_rule req with
             | Some rule => [_to_ek_recurrence rule]
             | None => []
             end)%list.
Proof.
  intros Hc blank. exists (created req cal blank).
  rewrite (create_event_run _ _ _ Hc). cbn [snd journal].
  repeat split.
Qed.

(** X4.  When the calendar of the request does not resolve,
    [create_event] raises what the resolution raised and the store has
    received no call.  Otherwise the store receives the save; when it
    reports a failure, [create_event] raises [CalendarError] with the
    creation-failed text and the diagnostic of the store, and when it
    reports success, [create_event] returns the conversion of the object
    as the store left it. *)
Theorem create_event_outcomes (m : t Store) (req : CreateEventRequest.t) :
  match _find_calendar (store m) (CreateEventRequest.calendar_name req) with
  | Raise x => create_event req m = (Raise x, m)
  | Return cal =>
      exists ev',
        let reply := saveEvent_span_error_ (store m) ev' EKSpanThisEvent in
        journal (snd (create_event req m))
        = (journal m ++ [SaveEvent ev' EKSpanThisEvent])%list
        /\ store (snd (create_event req m)) = store_after reply
        /\ fst (create_event req m)
           = if success reply
             then Return (Event.from_ekevent (object_after reply))
             else Raise (CalendarError ("이벤트 생성 실패: " ++ error reply))
  end.
Proof.
  destruct (_find_calendar (store m) (CreateEventRequest.calendar_name req))
    as [cal|x] eqn:Hc.
  - exists (created req cal (eventWithEventStore_ (store m))).
    rewrite (create_event_run _ _ _ Hc). now cbn.
  - now apply create_event_unresolved.
Qed.

End Creation.

Section Updating.
Context {P : Platform} {Store : Type} {ES : EventStore Store}.
Import CalendarManager.

Lemma resolved_Raise (self : Store) (req : UpdateEventRequest.t) (x : Exception) :
  resolved self req = Raise x ->
  exists name,
    UpdateEventRequest.calendar_name req = Some name
    /\ x = NoSuchCalendarError name.
Proof.
  unfold resolved.
  destruct (UpdateEventRequest.calendar_name req) as [name|]; [| discriminate].
  destruct (_find_calendar self (Some name)) as [c|e] eqn:E; [discriminate |].
  intros [= <-]. exists name. split; [reflexivity |].
  now apply find_calendar_named_Raise_only with (self := self).
Qed.

(** X5.  [update_event] checks before it commits.  When no event has
    the identifier it raises [NoSuchEventError] and the manager is as it
    was.  When the calendar name of the request is the title of no
    calendar it raises [NoSuchCalendarError] with the name and makes no
    call to the store, the journal is as it was; the object found has by
    then been edited in place by the setters that come before the
    calendar, and the store is left with it, edited and unsaved.
    Otherwise the store receives one save; on its failure
    [CalendarError] is raised with the update-failed text and the
    diagnostic, on its success the conversion of the object as the store
    left it is returned. *)
Theorem update_event_outcomes (m : t Store) (event_id : string)
  (req : UpdateEventRequest.t) :
  match eventWithIdentifier_ (store m) event_id with
  | None => update_event event_id req m = (Raise (NoSuchEventError event_id), m)
  | Some ev =>
      match resolved (store m) req with
      | Raise x =>
          fst (update_event event_id req m) = Raise x
          /\ (exists name,
                UpdateEventRequest.calendar_name req = Some name
                /\ x = NoSuchCalendarError name
                /\ forall c, In c (calendarsForEntityType_ (store m)) ->
                             calendar_title c <> name)
          /\ journal (snd (update_event event_id req m)) = journal m
          /\ store (snd (update_event event_id req m))
             = left_edited (store m)
                 (snd (update_event_edits req (store m) ev))
      | Return cal =>
          exists ev' span,
            let reply := saveEvent_span_error_ (store m) ev' span in
            journal (snd (update_event event_id req m))
            = (journal m ++ [SaveEvent ev' span])%list
            /\ store (snd (update_event event_id req m)) = store_after reply
            /\ fst (update_event event_id req m)
               = if success reply
                 then Return (Event.from_ekevent (object_after reply))
                 else Raise (CalendarError ("이벤트 수정 실패: " ++ error reply))
      end
  end.
Proof.
  destruct (eventWithIdentifier_ (store m) event_id) as [ev|] eqn:Hf.
  - destruct (resolved (store m) req) as [cal|x] eqn:Hc.
    + exists (edited req cal ev), (span_for (edited req cal ev)).
      rewrite (update_event_run _ _ _ _ _ Hf Hc). now cbn.
    + rewrite (update_event_unresolved _ _ _ _ _ Hf Hc).
      rewrite (update_event_edits_raise _ _ _ _ Hc). cbn [fst snd store journal].
      split; [reflexivity |]. split; [| now split].
      destruct (resolved_Raise _ _ _ Hc) as (name & Hn & ->).
      exists name. split; [exact Hn | split; [reflexivity |]].
      apply find_calendar_named_Raise.
      unfold resolved in Hc. rewrite Hn in Hc.
      destruct (_find_calendar (store m) (Some name)); [discriminate |].
      now injection Hc as ->.
  - now apply update_event_not_found.
Qed.

Lemma edited_twice (req : UpdateEventRequest.t) (cal : option EKCalendar)
  (e : EKEvent) :
  edited req cal (edited req cal e) = edited req cal e.
Proof.
  unfold edited. cbn. f_equal;
    match goal with |- context [keep_or ?o _ _] => now destruct o end.
Qed.

(** X6.  The edits of a request are idempotent: run again on the object
    they left, they return and leave it as it is. *)
Theorem update_event_edits_idempotent (self : Store)
  (req : UpdateEventRequest.t) (e e1 : EKEvent) :
  update_event_edits req self e = (Return tt, e1) ->
  update_event_edits req self e1 = (Return tt, e1).
Proof.
  destruct (resolved self req) as [cal|x] eqn:Hc.
  - rewrite (update_event_edits_return _ _ _ _ Hc). intros [= <-].
    rewrite (update_event_edits_return _ _ _ _ Hc). now rewrite edited_twice.
  - rewrite (update_event_edits_raise _ _ _ _ Hc). discriminate.
Qed.

Lemma resolved_Return_inv (self : Store) (req : UpdateEventRequest.t)
  (cal : option EKCalendar) :
  resolved self req = Return cal ->
  match UpdateEventRequest.calendar_name req with
  | Some name =>
      exists c, cal = Some c /\ _find_calendar self (Some name) = Return c
  | None => cal = None
  end.
Proof.
  unfold resolved.
  destruct (UpdateEventRequest.calendar_name req) as [name|].
  - destruct (_find_calendar self (Some name)) as [c|]; [| discriminate].
    intros [= <-]. now exists c.
  - now intros [= <-].
Qed.

Lemma resolved_merge (self : Store) (r1 r2 : UpdateEventRequest.t)
  (c1 c2 : option EKCalendar) :
  resolved self r1 = Return c1 -> resolved self r2 = Return c2 ->
  resolved self (merge r1 r2)
  = Return match c2 with Some c => Some c | None => c1 end.
Proof.
  intros H1 H2. pose proof (resolved_Return_inv _ _ _ H2) as I2.
  unfold resolved, merge. cbn -[_find_calendar].
  destruct (UpdateEventRequest.calendar_name r2) as [n2|].
  - destruct I2 as (c & -> & E). now rewrite E.
  - subst c2. exact H1.
Qed.

Lemma edited_merge (r1 r2 : UpdateEventRequest.t) (c1 c2 : option EKCalendar)
  (e : EKEvent) :
  edited r2 c2 (edited r1 c1 e)
  = edited (merge r1 r2) match c2 with Some c => Some c | None => c1 end e.
Proof.
  unfold edited, merge. cbn. f_equal;
    match goal with |- context [keep_or ?o _ (keep_or _ _ _)] => now destruct o end.
Qed.

(** X7.  Two rounds of edits compose into one: the edits of a request
    followed by the edits of a second leave the object that the edits of
    the merged request leave, the merged request supplying what the
    second supplies and, for the rest, what the first supplies. *)
Theorem update_event_edits_compose (self : Store)
  (r1 r2 : UpdateEventRequest.t) (e e1 e2 : EKEvent) :
  update_event_edits r1 self e = (Return tt, e1) ->
  update_event_edits r2 self e1 = (Return tt, e2) ->
  update_event_edits (merge r1 r2) self e = (Return tt, e2).
Proof.
  destruct (resolved self r1) as [c1|x] eqn:H1.
  2:{ rewrite (update_event_edits_raise _ _ _ _ H1). discriminate. }
  destruct (resolved self r2) as [c2|x] eqn:H2.
  2:{ intros _. rewrite (update_event_edits_raise _ _ _ _ H2). discriminate. }
  rewrite (update_event_edits_return _ _ _ _ H1). intros [= <-].
  rewrite (update_event_edits_return _ _ _ _ H2). intros [= <-].
  rewrite (update_event_edits_return _ _ _ _ (resolved_merge _ _ _ _ _ H1 H2)).
  now rewrite edited_merge.
Qed.

(** X8.  On a store that accepts the save and leaves the object as it
    received it, [update_event] returns an [Event] with the identifier
    of the event found and, for each of these fields that the request
    supplies, the supplied value: the title, the all-day flag, the name
    of the calendar; a supplied location or notes comes back as
    supplied, except that the empty string comes back as [None]; with a
    supplied recurrence rule the event is recurring. *)
Theorem update_event_returns_supplied_values (m : t Store) (event_id : string)
  (req : UpdateEventRequest.t) (ev : EKEvent) (cal : option EKCalendar) :
  eventWithIdentifier_ (store m) event_id = Some ev ->
  resolved (store m) req = Return cal ->
  (forall e span,
      success (saveEvent_span_error_ (store m) e span) = true
      /\ object_after (saveEvent_span_error_ (store m) e span) = e) ->
  exists r,
    fst (update_event event_id req m) = Return r
    /\ Event.identifier r = eventIdentifier ev
    /\ (forall v, UpdateEventRequest.title req = Some v -> Event.title r = v)
    /\ (forall v, UpdateEventRequest.all_day req = Some v -> Event.all_day r = v)
    /\ (forall v, UpdateEventRequest.calendar_name req = Some v ->
                  Event.calendar_name r = v)
    /\ (forall v, UpdateEventRequest.location req = Some v ->
                  Event.location r = if Py.truthy v then Some v else None)
    /\ (forall v, UpdateEventRequest.notes req = Some v ->
                  Event.notes r = if Py.truthy v then Some v else None)
    /\ (forall v, UpdateEventRequest.recurrence_rule req = Some v ->
                  Event.is_recurring r = true).
Proof.
  intros Hf Hc Hs.
  destruct (Hs (edited req cal ev) (span_for (edited req cal ev))) as [Hok Hobj].
  exists (Event.from_ekevent (edited req cal ev)).
  rewrite (update_event_run _ _ _ _ _ Hf Hc). cbn [fst].
  rewrite Hok, Hobj. split; [reflexivity |].
  unfold Event.from_ekevent, edited. cbn.
  repeat split; intros v H; try (rewrite H; cbn).
  - apply PyFacts.or_empty_Some.
  - reflexivity.
  - pose proof (resolved_Return_inv _ _ _ Hc) as I. rewrite H in I.
    destruct I as (c & -> & E). cbn.
    now destruct (proj1 (find_calendar_named_Return _ _ _) E) as (_ & _ & _ & Ht & _).
  - reflexivity.
  - reflexivity.
  - reflexivity.
Qed.

End Updating.

Section Conversion.
Context {P : Platform} {Store : Type} {ES : EventStore Store}.
Import CalendarManager.

(** X9.  [Event.from_ekevent] normalizes the texts of the host: the
    title is the empty string when the host has none; the location and
    the notes are never the empty string, they are [None] both when the
    host has none and when it has the empty string, and the text of the
    host otherwise; the calendar name is the title of the calendar, and
    empty without a calendar; the event is recurring exactly when the
    object has a recurrence rule. *)
Theorem from_ekevent_normalizes (e : EKEvent) :
  let r := Event.from_ekevent e in
  Event.identifier r = eventIdentifier e
  /\ Event.title r = match title e with Some s => s | None => "" end
  /\ Event.location r <> Some ""
  /\ Event.notes r <> Some ""
  /\ (Event.location r = None <-> location e = None \/ location e = Some "")
  /\ (Event.notes r = None <-> notes e = None \/ notes e = Some "")
  /\ (forall s, s <> "" -> location e = Some s -> Event.location r = Some s)
  /\ (forall s, s <> "" -> notes e = Some s -> Event.notes r = Some s)
  /\ Event.calendar_name r
     = match calendar e with Some c => calendar_title c | None => "" end
  /\ (Event.is_recurring r = true <-> rule_objects e <> []).
Proof.
  unfold Event.from_ekevent, Event.str_or_None, hasRecurrenceRules. cbn.
  split; [reflexivity |].
  split; [destruct (title e) as [[|a s]|]; reflexivity |].
  split; [destruct (location e) as [[|a s]|]; discriminate |].
  split; [destruct (notes e) as [[|a s]|]; discriminate |].
  split.
  { destruct (location e) as [[|a s]|]; cbn; split; try tauto; try discriminate.
    intros [H | H]; discriminate. }
  split.
  { destruct (notes e) as [[|a s]|]; cbn; split; try tauto; try discriminate.
    intros [H | H]; discriminate. }
  split; [intros [|a s] Hs ->; [contradiction | reflexivity] |].
  split; [intros [|a s] Hs ->; [contradiction | reflexivity] |].
  split; [reflexivity |].
  destruct (rule_objects e); split; congruence.
Qed.

(** X10.  For an event that has no title, [delete_event] returns the
    text None, the rendering of the missing title, whereas the listing
    of the same event shows the empty string as its title. *)
Theorem delete_event_untitled (m : t Store) (event_id : string) (ev : EKEvent) :
  eventWithIdentifier_ (store m) event_id = Some ev ->
  title ev = None ->
  success (removeEvent_span_error_ (store m) ev (span_for ev)) = true ->
  fst (delete_event event_id m) = Return "None"
  /\ Event.title (Event.from_ekevent ev) = "".
Proof.
  intros Hf Ht Hs. rewrite (delete_event_run _ _ _ Hf). cbn [fst].
  rewrite Hs, Ht. split; [reflexivity |].
  unfold Event.from_ekevent. cbn. now rewrite Ht.
Qed.

End Conversion.

Section Searching.
Context {P : Platform} {L : Py.StrLower} {Store : Type} {ES : EventStore Store}.
Import CalendarManager.

Lemma matches_empty (e : Event.t) : matches "" e = true.
Proof.
  unfold matches. cbn [Py.contains].
  destruct (Py.lower (Py.or_empty (Some (Event.title e)))); reflexivity.
Qed.

Lemma filter_all {A : Type} (p : A -> bool) (l : list A) :
  (forall x, p x = true) -> filter p l = l.
Proof.
  intros H. induction l as [|x l IH]; [reflexivity |].
  cbn. now rewrite H, IH.
Qed.

(** X12.  With the empty keyword [search_events] is [list_events] on
    the window around [now]; with any keyword it raises exactly what
    [list_events] raises on that window, and otherwise returns. *)
Theorem search_events_follows_list_events (self : Store) (now : Py.datetime)
  (keyword : string) (calendar_name : option string)
  (days_back days_forward : Z) :
  let listing :=
    list_events self (now - Py.timedelta_days days_back)
      (now + Py.timedelta_days days_forward) calendar_name in
  search_events self now "" calendar_name days_back days_forward = listing
  /\ (forall x,
        search_events self now keyword calendar_name days_back days_forward
        = Raise x <-> listing = Raise x)
  /\ ((exists found,
         search_events self now keyword calendar_name days_back days_forward
         = Return found)
      <-> exists events, listing = Return events).
Proof.
  intros listing. unfold search_events. fold listing. rewrite Py.lower_empty.
  destruct listing as [events|x]; cbn [bind Monad_result].
  - split; [now rewrite (filter_all _ _ matches_empty) |].
    split; [intros x; split; discriminate |].
    split; intros _; eexists; reflexivity.
  - split; [reflexivity |]. split; [tauto |].
    split; intros [l H]; discriminate.
Qed.

End Searching.

Section AccessFacts.
Context {Store : Type} {AC : CalendarManager.AccessControl Store}.
Import CalendarManager.

Lemma run_loop_until (n : nat) (success : bool) :
  forall (self : Store) (fuel : nat),
    (forall k, (k < n)%nat -> snd (runUntilDate_ (after_rounds k self)) = None) ->
    snd (runUntilDate_ (after_rounds n self)) = Some success ->
    run_loop fuel self (None, false)
    = if (n <? fuel)%nat
      then Some (after_rounds (S n) self, (Some success, true))
      else None.
Proof.
  induction n as [|n IH]; intros self fuel Hk Hn.
  - destruct fuel as [|fuel]; [reflexivity |].
    cbn in *. destruct (runUntilDate_ self) as [self' inv]. cbn in Hn.
    subst inv. cbn. now destruct fuel.
  - destruct fuel as [|fuel]; [reflexivity |].
    cbn [run_loop snd]. pose proof (Hk 0%nat ltac:(lia)) as H0. cbn in H0.
    destruct (runUntilDate_ self) as [self' inv] eqn:E. cbn in H0. subst inv.
    cbn [deliver].
    rewrite (IH self' fuel).
    + change (after_rounds (S (S n)) self)
        with (after_rounds (S n) (fst (runUntilDate_ self))).
      rewrite E. reflexivity.
    + intros k Hlt. specialize (Hk (S k) ltac:(lia)). cbn in Hk.
      now rewrite E in Hk.
    + cbn in Hn. now rewrite E in Hn.
Qed.

Lemma run_loop_forever (fuel : nat) :
  forall self : Store,
    (forall k, snd (runUntilDate_ (after_rounds k self)) = None) ->
    run_loop fuel self (None, false) = None.
Proof.
  induction fuel as [|fuel IH]; intros self Hk; [reflexivity |].
  cbn [run_loop snd]. pose proof (Hk 0%nat) as H0. cbn in H0.
  destruct (runUntilDate_ self) as [self' inv] eqn:E. cbn in H0. subst inv.
  cbn [deliver]. apply IH. intros k. specialize (Hk (S k)). cbn in Hk.
  now rewrite E in Hk.
Qed.

(** X14.  With the status authorized or full access, [_request_access]
    returns at once, whatever the fuel: no request is sent and the run
    loop is not entered, the host is as it was; and [__init__] gives the
    manager of that store with an empty journal. *)
Theorem request_access_when_authorized (fuel : nat) (self : Store) :
  authorizationStatusForEntityType_ self = EKAuthorizationStatusAuthorized
  \/ authorizationStatusForEntityType_ self = EKAuthorizationStatusFullAccess ->
  _request_access fuel self = Some (Return tt, self)
  /\ __init__ fuel self = Some (Return {| store := self; journal := [] |}).
Proof.
  intros H.
  assert (E : _request_access fuel self = Some (Return tt, self)).
  { unfold _request_access. destruct H as [-> | ->]; reflexivity. }
  split; [exact E |]. unfold __init__. now rewrite E.
Qed.

(** X15.  With any other status, [_request_access] sends the request
    for full access when the host has it and the older request
    otherwise, then lets the run loop turn until the callback is
    invoked.  When the callback is first invoked in round [n], counted
    from 0, the outcome needs more than [n] rounds of fuel, and is then
    decided by the argument of the callback: a return for [true], and
    for [false] the [CalendarError] with the text on the denied access;
    [__init__] gives a manager in the first case and raises in the
    second. *)
Theorem request_access_decided_by_callback (fuel n : nat) (self : Store)
  (success : bool) :
  authorizationStatusForEntityType_ self <> EKAuthorizationStatusAuthorized ->
  authorizationStatusForEntityType_ self <> EKAuthorizationStatusFullAccess ->
  snd (request_sent self) = None ->
  (forall k, (k < n)%nat ->
             snd (runUntilDate_ (after_rounds k (fst (request_sent self)))) = None) ->
  snd (runUntilDate_ (after_rounds n (fst (request_sent self)))) = Some success ->
  let self' := after_rounds (S n) (fst (request_sent self)) in
  _request_access fuel self
  = (if (n <? fuel)%nat
     then Some (if success then Return tt
                else Raise (CalendarError access_denied), self')
     else None)
  /\ __init__ fuel self
     = (if (n <? fuel)%nat
        then Some (if success then Return {| store := self'; journal := [] |}
                   else Raise (CalendarError access_denied))
        else None).
Proof.
  intros H3 H4 Hreq Hk Hn self'.
  assert (E : _request_access fuel self
              = if (n <? fuel)%nat
                then Some (if success then Return tt
                           else Raise (CalendarError access_denied), self')
                else None).
  { unfold _request_access.
    apply Z.eqb_neq in H3, H4. rewrite H3, H4. cbn [orb].
    fold (request_sent self).
    destruct (request_sent self) as [self1 inv]. cbn in Hreq, Hk, Hn. subst inv.
    cbn [deliver]. rewrite (run_loop_until n success self1 fuel Hk Hn).
    subst self'. cbn [fst].
    destruct (n <? fuel)%nat; [| reflexivity]. now destruct success. }
  split; [exact E |]. unfold __init__. rewrite E.
  destruct (n <? fuel)%nat; [| reflexivity]. now destruct success.
Qed.

(** X16.  With any other status and a host that never invokes the
    callback, [_request_access] does not come to an end: no amount of
    fuel gives an outcome, and [__init__] gives no manager. *)
Theorem request_access_waits_forever (self : Store) :
  authorizationStatusForEntityType_ self <> EKAuthorizationStatusAuthorized ->
  authorizationStatusForEntityType_ self <> EKAuthorizationStatusFullAccess ->
  snd (request_sent self) = None ->
  (forall k, snd (runUntilDate_ (after_rounds k (fst (request_sent self)))) = None) ->
  forall fuel, _request_access fuel self = None /\ __init__ fuel self = None.
Proof.
  intros H3 H4 Hreq Hk fuel.
  assert (E : _request_access fuel self = None).
  { unfold _request_access.
    apply Z.eqb_neq in H3, H4. rewrite H3, H4. cbn [orb].
    fold (request_sent self).
    destruct (request_sent self) as [self1 inv]. cbn in Hreq, Hk. subst inv.
    cbn [deliver]. now rewrite (run_loop_forever fuel self1 Hk). }
  split; [exact E |]. unfold __init__. now rewrite E.
Qed.

End AccessFacts.

(** * Beyond the claims: the command line and the server *)

Section Windows.

Lemma us_per_day_pos : 0 < Py.us_per_day.
Proof. reflexivity. Qed.

Lemma at_midnight_days (dt : Py.datetime) :
  Py.at_midnight dt = Py.us_per_day * (dt / Py.us_per_day).
Proof.
  unfold Py.at_midnight.
  pose proof (Z.div_mod dt Py.us_per_day) as H.
  pose proof us_per_day_pos. lia.
Qed.

Lemma at_midnight_shift (dt k : Z) :
  Py.at_midnight (dt + k * Py.us_per_day) = Py.at_midnight dt + k * Py.us_per_day.
Proof.
  unfold Py.at_midnight.
  rewrite Z.mod_add by (pose proof us_per_day_pos; lia). lia.
Qed.

Lemma week_start (now : Py.datetime) (offset : Z) :
  fst (Cli.week_window now offset)
  = Py.us_per_day * (7 * (now / Py.us_per_day / 7 + offset)).
Proof.
  unfold Cli.week_window, Py.timedelta_days, Py.timedelta_weeks, Py.weekday.
  cbn [fst].
  replace (now - (now / Py.us_per_day) mod 7 * Py.us_per_day
           + offset * 7 * Py.us_per_day)
    with (now + (offset * 7 - (now / Py.us_per_day) mod 7) * Py.us_per_day)
    by lia.
  rewrite at_midnight_shift, at_midnight_days.
  pose proof (Z.div_mod (now / Py.us_per_day) 7). lia.
Qed.

(** X17.  The window of [today] begins at midnight of the day of [now],
    is one day long, and contains [now]. *)
Theorem today_window_is_the_day_of_now (now : Py.datetime) :
  let '(start, end_) := Cli.today_window now in
  start mod Py.us_per_day = 0
  /\ start / Py.us_per_day = now / Py.us_per_day
  /\ Py.hour start = 0 /\ Py.minute start = 0
  /\ end_ = start + Py.us_per_day
  /\ start <= now < end_.
Proof.
  unfold Cli.today_window, Py.timedelta_days.
  pose proof us_per_day_pos as Hd.
  pose proof (Z.mod_pos_bound now Py.us_per_day Hd) as Hb.
  assert (Hm : Py.at_midnight now mod Py.us_per_day = 0).
  { rewrite at_midnight_days, Z.mul_comm. now apply Z.mod_mul; lia. }
  split; [exact Hm |].
  split.
  { rewrite at_midnight_days, Z.mul_comm. apply Z.div_mul. lia. }
  split; [unfold Py.hour; now rewrite Hm |].
  split.
  { unfold Py.minute.
    assert (E : Py.us_per_day = 24 * Py.us_per_hour) by reflexivity.
    rewrite at_midnight_days, E.
    replace (24 * Py.us_per_hour * (now / (24 * Py.us_per_hour)))
      with ((24 * (now / (24 * Py.us_per_hour))) * Py.us_per_hour) by lia.
    now rewrite Z.mod_mul by discriminate. }
  split; [lia |].
  unfold Py.at_midnight. lia.
Qed.

(** X18.  The window of [week] begins on a Monday at midnight and is
    seven days long; with offset 0 it contains [now]; the window of the
    next offset begins where this one ends, so that the windows of all
    offsets tile the time line, the window of offset [k] lying [k] weeks
    from the window of offset 0. *)
Theorem week_window_is_a_week_from_monday (now : Py.datetime) (offset : Z) :
  let '(start, end_) := Cli.week_window now offset in
  Py.weekday start = 0
  /\ start mod Py.us_per_day = 0
  /\ end_ = start + 7 * Py.us_per_day
  /\ fst (Cli.week_window now 0) <= now < snd (Cli.week_window now 0)
  /\ fst (Cli.week_window now (offset + 1)) = end_
  /\ start = fst (Cli.week_window now 0) + offset * (7 * Py.us_per_day).
Proof.
  pose proof (week_start now offset) as Hs.
  pose proof (week_start now 0) as H0.
  pose proof (week_start now (offset + 1)) as H1.
  pose proof us_per_day_pos as Hd.
  assert (He : forall o, snd (Cli.week_window now o)
                         = fst (Cli.week_window now o) + 7 * Py.us_per_day).
  { intros o. unfold Cli.week_window, Py.timedelta_days. cbn [fst snd]. lia. }
  pose proof (He offset) as Heo. pose proof (He 0) as He0.
  destruct (Cli.week_window now offset) as [start end_]. cbn [fst snd] in *.
  split.
  { unfold Py.weekday. rewrite Hs, Z.mul_comm, Z.div_mul by lia.
    rewrite Z.mul_comm. now apply Z.mod_mul. }
  split.
  { rewrite Hs, Z.mul_comm. now apply Z.mod_mul; lia. }
  split; [lia |].
  split.
  { rewrite He0, H0.
    pose proof (Z.div_mod now Py.us_per_day) as Hn.
    pose proof (Z.mod_pos_bound now Py.us_per_day Hd) as Hb.
    pose proof (Z.div_mod (now / Py.us_per_day) 7) as Hq.
    pose proof (Z.mod_pos_bound (now / Py.us_per_day) 7) as Hb7.
    nia. }
  split; [rewrite H1; lia |].
  rewrite Hs, H0. lia.
Qed.

End Windows.

Section ServerFacts.
Context {P : Platform} {L : Py.StrLower} {Store : Type} {ES : EventStore Store}.
Import CalendarManager.

Lemma on_manager_Some {A : Type} (new_manager : result (t Store))
  (method : StateErr (t Store) A) (m : t Store) :
  Server.on_manager new_manager method (Some m)
  = (fst (method m), Some (snd (method m))).
Proof. unfold Server.on_manager. cbn. now destruct (method m). Qed.

Lemma on_manager_None_Raise {A : Type} (method : StateErr (t Store) A)
  (e : Exception) :
  Server.on_manager (Raise e) method None = (Raise e, None).
Proof. reflexivity. Qed.

(** X19.  When the construction of the manager raises, as it does when
    access is denied, every tool and the resource answer with the text
    Error, colon, and the message of the exception, and the server is
    still without a manager, so that the next call constructs again. *)
Theorem tools_report_failed_construction (e : Exception)
  (start_date end_date now : Py.datetime) (keyword event_id : string)
  (calendar_name : option string) (create_request : CreateEventRequest.t)
  (update_request : UpdateEventRequest.t) :
  let report := ("Error: " ++ message e, @None (t Store)) in
  Server.resource_calendars (Raise e) None = report
  /\ Server.list_events (Raise e) start_date end_date calendar_name None = report
  /\ Server.search_events (Raise e) now keyword calendar_name None = report
  /\ Server.create_event (Raise e) create_request None = report
  /\ Server.update_event (Raise e) event_id update_request None = report
  /\ Server.delete_event (Raise e) event_id None = report.
Proof. repeat split. Qed.

(** X20.  A tool reports what the method of the manager raises: the
    answer is the text Error, colon, and the message of the exception,
    for [NoSuchEventError] the text on the event not found followed by
    the identifier and for [NoSuchCalendarError] the text on the
    calendar not found followed by the name; the server keeps its
    manager. *)
Theorem tools_report_exceptions (new_manager : result (t Store)) (m : t Store)
  (e : Exception) (start_date end_date now : Py.datetime)
  (keyword event_id : string) (calendar_name : option string)
  (create_request : CreateEventRequest.t)
  (update_request : UpdateEventRequest.t) :
  (list_events (store m) start_date end_date calendar_name = Raise e ->
   Server.list_events new_manager start_date end_date calendar_name (Some m)
   = ("Error: " ++ message e, Some m))
  /\ (search_events (store m) now keyword calendar_name default_days_back
        default_days_forward = Raise e ->
      Server.search_events new_manager now keyword calendar_name (Some m)
      = ("Error: " ++ message e, Some m))
  /\ (fst (create_event create_request m) = Raise e ->
      fst (Server.create_event new_manager create_request (Some m))
      = "Error: " ++ message e)
  /\ (fst (update_event event_id update_request m) = Raise e ->
      fst (Server.update_event new_manager event_id update_request (Some m))
      = "Error: " ++ message e)
  /\ (fst (delete_event event_id m) = Raise e ->
      fst (Server.delete_event new_manager event_id (Some m))
      = "Error: " ++ message e)
  /\ (eventWithIdentifier_ (store m) event_id = None ->
      Server.delete_event new_manager event_id (Some m)
      = ("Error: 이벤트를 찾을 수 없습니다: " ++ event_id, Some m)
      /\ Server.update_event new_manager event_id update_request (Some m)
         = ("Error: 이벤트를 찾을 수 없습니다: " ++ event_id, Some m)).
Proof.
  split; [| split; [| split; [| split; [| split]]]].
  - intros H. unfold Server.list_events. rewrite on_manager_Some.
    unfold lift. cbn [fst snd]. now rewrite H.
  - intros H. unfold Server.search_events. rewrite on_manager_Some.
    unfold lift. cbn [fst snd]. now rewrite H.
  - intros H. unfold Server.create_event. rewrite on_manager_Some.
    cbn [fst]. now rewrite H.
  - intros H. unfold Server.update_event. rewrite on_manager_Some.
    cbn [fst]. now rewrite H.
  - intros H. unfold Server.delete_event. rewrite on_manager_Some.
    cbn [fst]. now rewrite H.
  - intros H. split.
    + unfold Server.delete_event. rewrite on_manager_Some.
      now rewrite (delete_event_not_found _ _ H).
    + unfold Server.update_event. rewrite on_manager_Some.
      now rewrite (update_event_not_found _ _ _ H).
Qed.

(** X21.  The manager is constructed at most once: when the server has
    a manager, no tool looks at what a construction would give, and the
    server has a manager afterwards; when it has none and the
    construction returns one, a tool does what it does on a server that
    has that manager. *)
Theorem manager_is_constructed_once (new1 new2 : result (t Store))
  (m : t Store) (start_date end_date now : Py.datetime)
  (keyword event_id : string) (calendar_name : option string)
  (create_request : CreateEventRequest.t)
  (update_request : UpdateEventRequest.t) :
  (Server.resource_calendars new1 (Some m)
   = Server.resource_calendars new2 (Some m)
   /\ Server.list_events new1 start_date end_date calendar_name (Some m)
      = Server.list_events new2 start_date end_date calendar_name (Some m)
   /\ Server.search_events new1 now keyword calendar_name (Some m)
      = Server.search_events new2 now keyword calendar_name (Some m)
   /\ Server.create_event new1 create_request (Some m)
      = Server.create_event new2 create_request (Some m)
   /\ Server.update_event new1 event_id update_request (Some m)
      = Server.update_event new2 event_id update_request (Some m)
   /\ Server.delete_event new1 event_id (Some m)
      = Server.delete_event new2 event_id (Some m))
  /\ (snd (Server.resource_calendars new1 (Some m)) <> None
      /\ snd (Server.list_events new1 start_date end_date calendar_name (Some m))
         <> None
      /\ snd (Server.search_events new1 now keyword calendar_name (Some m))
         <> None
      /\ snd (Server.create_event new1 create_request (Some m)) <> None
      /\ snd (Server.update_event new1 event_id update_request (Some m)) <> None
      /\ snd (Server.delete_event new1 event_id (Some m)) <> None)
  /\ (Server.resource_calendars (Return m) None
      = Server.resource_calendars new2 (Some m)
      /\ Server.list_events (Return m) start_date end_date calendar_name None
         = Server.list_events new2 start_date end_date calendar_name (Some m)
      /\ Server.search_events (Return m) now keyword calendar_name None
         = Server.search_events new2 now keyword calendar_name (Some m)
      /\ Server.create_event (Return m) create_request None
         = Server.create_event new2 create_request (Some m)
      /\ Server.update_event (Return m) event_id update_request None
         = Server.update_event new2 event_id update_request (Some m)
      /\ Server.delete_event (Return m) event_id None
         = Server.delete_event new2 event_id (Some m)).
Proof.
  split; [repeat split |]. split.
  - unfold Server.resource_calendars, Server.list_events, Server.search_events,
      Server.create_event, Server.update_event, Server.delete_event.
    rewrite !on_manager_Some. cbn [snd]. repeat split; discriminate.
  - repeat split.
Qed.

End ServerFacts.

(** * The further properties on concrete inputs *)

Section MoreRuns.
Import CalendarManager.
#[local] Existing Instance Mock.ascii_fold.

Example list_calendars_sample :
  list_calendars Mock.sample = ["Home"; "Work"; "Work"]
  /\ Py.sorted_str ["b"; "B"; "ab"; ""; "a"] = [""; "B"; "a"; "ab"; "b"].
Proof. split; reflexivity. Qed.

Example week_sample :
  Cli.week_window (Mock.feb12 10 0) 0
  = (Mock.at_day 739655 0 0, Mock.at_day 739662 0 0)
  /\ Py.strftime (fst (Cli.week_window (Mock.feb12 10 0) 0)) "%Y-%m-%d %H:%M"
     = "2026-02-09 00:00"
  /\ Py.strftime (fst (Cli.week_window (Mock.feb12 10 0) (-1))) "%Y-%m-%d"
     = "2026-02-02"
  /\ Cli.today_window (Mock.feb12 10 0) = (Mock.feb12 0 0, Mock.at_day 739659 0 0).
Proof. repeat split; vm_compute; reflexivity. Qed.

Example server_sample :
  fst (Server.list_events (Raise (CalendarError "unused")) (Mock.feb12 0 0)
         (Mock.feb12 23 0) (Some "Home") (Some (Mock.manager Mock.sample)))
  = "Lunch (2026-02-12 10:00 ~ 2026-02-12 11:00) | [Home] | ID: E2"
  /\ fst (Server.search_events (Raise (CalendarError "unused")) (Mock.feb12 0 0)
            "o" None (Some (Mock.manager Mock.sample)))
     = "검색 결과 (3건):" ++ Py.LF
       ++ "Offsite (2026-02-12 ~ 2026-02-13) | ID: E3" ++ Py.LF
       ++ "Standup (2026-02-12 10:00 ~ 2026-02-12 10:30) | [Work] | @ Room 4 | ID: E1"
       ++ Py.LF
       ++ "Lunch (2026-02-12 10:00 ~ 2026-02-12 11:00) | [Home] | ID: E2"
  /\ fst (Server.delete_event (Raise (CalendarError "unused")) "E1"
            (Some (Mock.manager Mock.sample)))
     = "이벤트 삭제 완료: Standup".
Proof. repeat split; vm_compute; reflexivity. Qed.

Example update_event_unknown_calendar_sample :
  let after := update_event "E1" Mock.rename_and_misplace
                 (Mock.manager Mock.sample) in
  fst after = Raise (NoSuchCalendarError "Nope")
  /\ journal (snd after) = []
  /\ Mock.events (store (snd after)) = Mock.events Mock.sample
  /\ Mock.unsaved (store (snd after)) = [setTitle_ "Renamed" Mock.standup].
Proof. repeat split. Qed.

Lemma create_event_saves_this_event_witness :
  exists ev',
    journal (snd (create_event Mock.new_weekly (Mock.manager Mock.sample)))
    = [SaveEvent ev' EKSpanThisEvent]
    /\ title ev' = Some "Review"
    /\ calendar ev' = Some Mock.home
    /\ location ev' = None
    /\ notes ev' = Some "Agenda"
    /\ alarm_objects ev'
       = [alarmWithRelativeOffset_ (-900); alarmWithRelativeOffset_ (-3600)]
    /\ rule_objects ev' = [Mock.every_week].
Proof.
  assert (Hd : _find_calendar (store (Mock.manager Mock.sample))
                 (CreateEventRequest.calendar_name Mock.new_weekly)
               = Return Mock.home) by reflexivity.
  destruct (create_event_saves_this_event (Mock.manager Mock.sample)
              Mock.new_weekly Mock.home Hd)
    as (ev' & Hj & Ht & _ & _ & _ & Hc & Hl & Hn & _ & Ha & Hr).
  exists ev'. repeat split; assumption.
Defined.

Lemma update_event_edits_idempotent_witness :
  update_event_edits Mock.retitle Mock.sample
    (snd (update_event_edits Mock.retitle Mock.sample Mock.lunch))
  = (Return tt, snd (update_event_edits Mock.retitle Mock.sample Mock.lunch)).
Proof.
  apply (update_event_edits_idempotent Mock.sample Mock.retitle Mock.lunch).
  vm_compute. reflexivity.
Defined.

Lemma update_event_edits_compose_witness :
  update_event_edits (merge Mock.retitle (Mock.relocate "Cafe")) Mock.sample
    Mock.lunch
  = update_event_edits (Mock.relocate "Cafe") Mock.sample
      (snd (update_event_edits Mock.retitle Mock.sample Mock.lunch)).
Proof.
  rewrite (update_event_edits_compose Mock.sample Mock.retitle
             (Mock.relocate "Cafe") Mock.lunch
             (snd (update_event_edits Mock.retitle Mock.sample Mock.lunch))
             (snd (update_event_edits (Mock.relocate "Cafe") Mock.sample
                     (snd (update_event_edits Mock.retitle Mock.sample
                             Mock.lunch))))).
  - vm_compute. reflexivity.
  - vm_compute. reflexivity.
  - vm_compute. reflexivity.
Defined.

Lemma update_event_returns_supplied_values_witness :
  exists r,
    fst (update_event "E1" (Mock.relocate "") (Mock.manager Mock.sample))
    = Return r
    /\ Event.identifier r = "E1"
    /\ Event.location r = None.
Proof.
  assert (Hf : eventWithIdentifier_ (store (Mock.manager Mock.sample)) "E1"
               = Some Mock.standup) by reflexivity.
  assert (Hc : resolved (store (Mock.manager Mock.sample)) (Mock.relocate "")
               = Return None) by reflexivity.
  assert (Hs : forall e span,
             success (saveEvent_span_error_ (store (Mock.manager Mock.sample))
                        e span) = true
             /\ object_after (saveEvent_span_error_
                                (store (Mock.manager Mock.sample)) e span) = e)
    by (intros e span; split; reflexivity).
  destruct (update_event_returns_supplied_values (Mock.manager Mock.sample)
              "E1" (Mock.relocate "") Mock.standup None Hf Hc Hs)
    as (r & Hr & Hi & _ & _ & _ & Hl & _).
  exists r. split; [exact Hr | split; [exact Hi |]].
  exact (Hl "" eq_refl).
Defined.

Lemma delete_event_untitled_witness :
  fst (delete_event "E7" (Mock.manager Mock.drafts)) = Return "None"
  /\ Event.title (Event.from_ekevent Mock.untitled) = "".
Proof.
  exact (delete_event_untitled (Mock.manager Mock.drafts) "E7" Mock.untitled
           eq_refl eq_refl eq_refl).
Defined.

Lemma request_access_when_authorized_witness :
  _request_access 0 Mock.authorized = Some (Return tt, Mock.authorized)
  /\ __init__ 0 Mock.authorized
     = Some (Return {| store := Mock.authorized; journal := [] |}).
Proof.
  apply (request_access_when_authorized 0 Mock.authorized). left. reflexivity.
Defined.

Lemma request_access_decided_by_callback_witness :
  __init__ 4 (Mock.undetermined false)
  = Some (Raise (CalendarError access_denied))
  /\ __init__ 3 (Mock.undetermined false) = None
  /\ exists m, __init__ 4 (Mock.undetermined true) = Some (Return m).
Proof.
  assert (N3 : forall grant,
             authorizationStatusForEntityType_ (Mock.undetermined grant)
             <> EKAuthorizationStatusAuthorized)
    by (intros grant E; discriminate E).
  assert (N4 : forall grant,
             authorizationStatusForEntityType_ (Mock.undetermined grant)
             <> EKAuthorizationStatusFullAccess)
    by (intros grant E; discriminate E).
  assert (H : forall grant k,
             (k < 3)%nat ->
             snd (runUntilDate_
                    (after_rounds k (fst (request_sent (Mock.undetermined grant)))))
             = None).
  { intros grant [|[|[|k]]] Hk; try reflexivity. lia. }
  split; [| split].
  - exact (proj2 (request_access_decided_by_callback 4 3 (Mock.undetermined false)
                    false (N3 false) (N4 false) eq_refl (H false) eq_refl)).
  - exact (proj2 (request_access_decided_by_callback 3 3 (Mock.undetermined false)
                    false (N3 false) (N4 false) eq_refl (H false) eq_refl)).
  - eexists.
    exact (proj2 (request_access_decided_by_callback 4 3 (Mock.undetermined true)
                    true (N3 true) (N4 true) eq_refl (H true) eq_refl)).
Defined.

Lemma request_access_waits_forever_witness :
  _request_access 1000 Mock.silent = None /\ __init__ 1000 Mock.silent = None.
Proof.
  apply (request_access_waits_forever Mock.silent).
  - intros E; discriminate E.
  - intros E; discriminate E.
  - reflexivity.
  - intros k. induction k as [|k IH]; [reflexivity | exact IH].
Defined.

Lemma tools_report_exceptions_witness :
  Server.list_events (Raise (CalendarError "unused")) (Mock.feb12 0 0)
    (Mock.feb12 23 0) (Some "Nope") (Some (Mock.manager Mock.sample))
  = ("Error: 캘린더를 찾을 수 없습니다: Nope", Some (Mock.manager Mock.sample))
  /\ Server.delete_event (Raise (CalendarError "unused")) "E9"
       (Some (Mock.manager Mock.sample))
     = ("Error: 이벤트를 찾을 수 없습니다: E9", Some (Mock.manager Mock.sample)).
Proof.
  destruct (tools_report_exceptions (Raise (CalendarError "unused"))
              (Mock.manager Mock.sample) (NoSuchCalendarError "Nope")
              (Mock.feb12 0 0) (Mock.feb12 23 0) 0 "" "E9" (Some "Nope")
              Mock.new_weekly Mock.retitle)
    as (Hl & _ & _ & _ & _ & Hd).
  split; [exact (Hl eq_refl) | exact (proj1 (Hd eq_refl))].
Defined.

End MoreRuns.

Section ListedCalendars.
Context {P : Platform} {L : Py.StrLower} {Store : Type} {ES : EventStore Store}.
Import CalendarManager.

(** X22.  Given a name that is not empty, [list_events] asks the host
    about one calendar only, the first of the enumeration that has the
    name as its title, and returns what the host finds there, sorted. *)
Theorem list_events_asks_one_calendar (self : Store)
  (start end_ : Py.datetime) (name : string) (events : list Event.t) :
  name <> "" ->
  list_events self start end_ (Some name) = Return events ->
  exists cal before after,
    calendarsForEntityType_ self = (before ++ cal :: after)%list
    /\ calendar_title cal = name
    /\ (forall c, In c before -> calendar_title c <> name)
    /\ events
       = Py.sorted Event.start_time
           (map Event.from_ekevent
              (found_by self
                 {| predicate_start := _to_nsdate start;
                    predicate_end := _to_nsdate end_;
                    predicate_calendars := Some [cal] |})).
Proof.
  intros Hn H.
  destruct (calendars_filter self (Some name)) as [cs|x] eqn:E.
  - rewrite (list_events_run _ _ _ _ _ E) in H. injection H as <-.
    unfold calendars_filter in E. destruct name as [|a name]; [contradiction |].
    cbn [Py.truthy bind Monad_result] in E.
    destruct (_find_calendar self (Some (String a name))) as [cal|] eqn:Ec;
      [| discriminate].
    injection E as <-.
    destruct (proj1 (find_calendar_named_Return _ _ _) Ec)
      as (before & after & Hl & Ht & Hb).
    now exists cal, before, after.
  - now rewrite (list_events_raise _ _ _ _ _ E) in H.
Qed.

(** X23.  [list_events] and [search_events] do not raise for a name
    that [list_calendars] returns. *)
Theorem listed_calendar_names_list (self : Store) (start end_ now : Py.datetime)
  (keyword name : string) (days_back days_forward : Z) :
  In name (list_calendars self) ->
  (exists events, list_events self start end_ (Some name) = Return events)
  /\ (exists found,
        search_events self now keyword (Some name) days_back days_forward
        = Return found).
Proof.
  intros Hin.
  assert (Hc : exists cs, calendars_filter self (Some name) = Return cs).
  { destruct (calendars_filter self (Some name)) as [cs|x] eqn:E;
      [now exists cs |].
    destruct (calendars_filter_raise _ _ _ E) as (n & [= <-] & _ & _ & Hno).
    unfold list_calendars in Hin.
    apply (Permutation_in _ (sorted_str_perm _)) in Hin.
    apply in_map_iff in Hin as (c & Ht & Hi). now destruct (Hno c Hi). }
  destruct Hc as [cs Hc]. split.
  - eexists. apply (list_events_run _ _ _ _ _ Hc).
  - unfold search_events. rewrite (list_events_run _ _ _ _ _ Hc).
    eexists. reflexivity.
Qed.

End ListedCalendars.

Section ListedRuns.
Import CalendarManager.
#[local] Existing Instance Mock.ascii_fold.

Lemma list_events_asks_one_calendar_witness :
  exists cal before after,
    calendarsForEntityType_ Mock.sample = (before ++ cal :: after)%list
    /\ calendar_title cal = "Work"
    /\ before = [Mock.home]
    /\ cal = Mock.work.
Proof.
  assert (Hn : "Work" <> "") by discriminate.
  assert (Hl : list_events Mock.sample (Mock.feb12 0 0) (Mock.feb12 23 0)
                 (Some "Work")
               = Return [Event.from_ekevent Mock.standup])
    by (vm_compute; reflexivity).
  destruct (list_events_asks_one_calendar Mock.sample (Mock.feb12 0 0)
              (Mock.feb12 23 0) "Work" _ Hn Hl)
    as (cal & before & after & Hc & Ht & Hb & _).
  exists cal, before, after. split; [exact Hc | split; [exact Ht |]].
  cbn in Hc.
  destruct before as [|b0 [|b1 [|b2 before]]]; cbn in Hc.
  - injection Hc as <- _. discriminate Ht.
  - injection Hc as <- <- _. now split.
  - injection Hc as <- <- _. exfalso. apply (Hb Mock.work); [now right; left |].
    reflexivity.
  - injection Hc as <- <- <- Hc. now destruct before.
Defined.

Lemma listed_calendar_names_list_witness :
  (exists events,
      list_events Mock.sample (Mock.feb12 0 0) (Mock.feb12 23 0) (Some "Home")
      = Return events)
  /\ (exists found,
        search_events Mock.sample (Mock.feb12 0 0) "foo" (Some "Home") 30 90
        = Return found).
Proof.
  apply (listed_calendar_names_list Mock.sample).
  left. reflexivity.
Defined.

End ListedRuns.
